(** * Opening book converter (scripts/convert_opening_book.py)

    A shallow embedding of [OpeningBookConverter] and the properties of its
    coordinate translation, move classification, scoring, aggregation and
    reporting.

    Conventions of the embedding:
    - Python [int] is [Z]; Python [str] is [string], a character standing for
      a code point below 256 (on that range the only characters [int()]
      accepts are the ten ASCII digits);
    - a [dict] whose iteration order is observable is an association list in
      insertion order; the constant lookup tables are [gmap]s;
    - a function that may raise returns a [result]: [Ok v] or [Raise e]. *)

From Stdlib Require Import ZArith String Ascii List Sorting.Sorted Permutation.
From stdpp Require Import base option list strings gmap pretty.

Local Open Scope string_scope.
Local Open Scope Z_scope.

(** ** Exceptions and the error monad *)

(** The exception classes the converter can raise, each with its message.
    The message of an exception raised by the interpreter itself is kept
    short: nothing in the converter inspects it. *)
Inductive exception : Type :=
  | ValueError (msg : string)
  | IndexError (msg : string)
  | KeyError (key : string).

Inductive result (A : Type) : Type :=
  | Ok (a : A)
  | Raise (e : exception).
Arguments Ok {A} a.
Arguments Raise {A} e.

#[global] Instance result_ret : MRet result := fun A a => Ok a.
#[global] Instance result_bind : MBind result := fun A B f m =>
  match m with
  | Ok a => f a
  | Raise e => Raise e
  end.

Definition is_ValueError (e : exception) : Prop :=
  match e with ValueError _ => True | _ => False end.

(** ** Python primitives used by the converter *)

(** [int(c)] for a one-character string. *)
Definition digit_value (c : ascii) : option Z :=
  let n := Z.of_N (N_of_ascii c) in
  if (48 <=? n) && (n <=? 57) then Some (n - 48) else None.

Definition py_int (c : ascii) : result Z :=
  match digit_value c with
  | Some d => Ok d
  | None => Raise (ValueError "invalid literal for int() with base 10")
  end.

(** [s[i]] for a non-negative literal index. *)
Definition str_index (s : string) (i : nat) : result ascii :=
  match String.get i s with
  | Some c => Ok c
  | None => Raise (IndexError "string index out of range")
  end.

(** [len(s)] *)
Definition len (s : string) : Z := Z.of_nat (String.length s).

(** [chr(n)]; the converter only calls it on [ord('a') + d - 1] for a digit
    value [d], which is below 256. *)
Definition chr (n : Z) : result ascii :=
  if (0 <=? n) && (n <? 256) then Ok (ascii_of_N (Z.to_N n))
  else Raise (ValueError "chr() arg not in range").

Definition ord (c : ascii) : Z := Z.of_N (N_of_ascii c).

(** [sub in s] on strings: substring test. *)
Definition str_contains (sub s : string) : bool :=
  match String.index 0 sub s with
  | Some _ => true
  | None => false
  end.

(** [x in l] for a list of strings. *)
Definition str_in (x : string) (l : list string) : bool :=
  bool_decide (x ∈ l).

(** [d.get(k, default)] on a constant table. *)
Definition dict_get {V} (d : gmap string V) (k : string) (dflt : V) : V :=
  default dflt (d !! k).

(** ** Data classes *)

Record JsonMove : Type := mkJsonMove {
  from_pos : string;
  to_pos : string;
  promote : bool;
  jm_piece_type : string
}.

Record ConvertedMove : Type := mkConvertedMove {
  from_row : Z;
  from_col : Z;
  to_row : Z;
  to_col : Z;
  piece_type : string;
  is_drop : bool;
  is_promotion : bool;
  weight : Z;
  evaluation : Z;
  opening_name : string;
  move_notation : string
}.

Record ConvertedPosition : Type := mkConvertedPosition {
  fen : string;
  moves : list ConvertedMove
}.

(** ** The converter's tables *)

Definition opening_weights : gmap string Z :=
  <["Aggressive Rook" := 850]>
  (<["Yagura" := 800]>
  (<["Kakugawari (Bishop Exchange)" := 750]>
  (<["Shikenbisya (Fourth File Rook)" := 700]>
  (<["Aigakari (Double Wing Attack)" := 650]>
  (<["Side Pawn Picker (Yokofudori)" := 600]> ∅))))).

Definition evaluation_scores : gmap string Z :=
  <["development" := 15]>
  (<["central_control" := 20]>
  (<["king_safety" := 25]>
  (<["tactical" := 30]>
  (<["positional" := 10]>
  (<["neutral" := 0]> ∅))))).

(** ** convert_coordinate *)

Definition convert_coordinate (coord : string) : result (Z * Z) :=
  if negb (len coord =? 2) then
    Raise (ValueError ("Invalid coordinate format: " +:+ coord))
  else
    c0 ← str_index coord 0;
    d0 ← py_int c0;
    let col := d0 - 1 in
    c1 ← str_index coord 1;
    d1 ← py_int c1;
    let row := d1 - 1 in
    if negb ((0 <=? row) && (row <=? 8)) || negb ((0 <=? col) && (col <=? 8))
    then Raise (ValueError ("Coordinate out of bounds: " +:+ coord))
    else Ok (row, col).

(** ** determine_piece_type *)

Definition determine_piece_type (move : JsonMove) (fen : string)
    (opening_name : string) : string :=
  if String.eqb opening_name "Aggressive Rook" then
    if str_contains "27" (from_pos move) || str_contains "26" (from_pos move)
       || str_contains "25" (from_pos move)
    then "Rook" else "Pawn"
  else if String.eqb opening_name "Yagura" then
    if str_contains "77" (from_pos move) || str_contains "76" (from_pos move)
    then "Pawn"
    else if str_contains "69" (from_pos move) || str_contains "78" (to_pos move)
    then "Gold" else "Pawn"
  else if String.eqb opening_name "Kakugawari (Bishop Exchange)" then
    if str_contains "22" (from_pos move) || str_contains "88" (to_pos move)
    then "Bishop" else "Pawn"
  else "Pawn".

(** ** determine_move_type *)

Definition central_squares : list string := ["44"; "45"; "54"; "55"].
Definition king_safety_moves : list string := ["77"; "78"; "87"; "88"].

Definition determine_move_type (move : JsonMove) (opening_name : string)
    : string :=
  if String.eqb (from_pos move) "drop" then "tactical"
  else if promote move then "tactical"
  else if str_in (to_pos move) central_squares then "central_control"
  else if str_in (to_pos move) king_safety_moves then "king_safety"
  else if str_in opening_name ["Yagura"; "Aggressive Rook"] then "development"
  else "positional".

(** ** assign_weight *)

Definition assign_weight (move : JsonMove) (opening_name : string) : Z :=
  let base_weight := dict_get opening_weights opening_name 500 in
  let base_weight :=
    if promote move then base_weight + 100
    else if String.eqb (from_pos move) "drop" then base_weight + 50
    else base_weight in
  let base_weight :=
    if String.eqb opening_name "Aggressive Rook" then
      if str_in (from_pos move) ["27"; "26"; "25"] then base_weight + 50
      else base_weight
    else if String.eqb opening_name "Yagura" then
      if str_in (from_pos move) ["77"; "69"] then base_weight + 50
      else base_weight
    else base_weight in
  Z.min base_weight 1000.

(** ** assign_evaluation *)

Definition assign_evaluation (move : JsonMove) (opening_name : string) : Z :=
  let move_type := determine_move_type move opening_name in
  let base_eval := dict_get evaluation_scores move_type 0 in
  let base_eval :=
    if str_in opening_name ["Aggressive Rook"; "Yagura"] then base_eval + 5
    else if str_in opening_name ["Kakugawari (Bishop Exchange)"]
    then base_eval + 10
    else base_eval in
  let base_eval := if promote move then base_eval + 15 else base_eval in
  base_eval.

(** ** generate_move_notation *)

(** The f-string [{int(s[0])}{chr(ord('a') + int(s[1]) - 1)}]. *)
Definition usi_coord (s : string) : result string :=
  c0 ← str_index s 0;
  d0 ← py_int c0;
  c1 ← str_index s 1;
  d1 ← py_int c1;
  ch ← chr (ord "a" + d1 - 1);
  Ok (pretty d0 +:+ String ch EmptyString).

Definition generate_move_notation (move : JsonMove) (opening_name : string)
    : result string :=
  if String.eqb (from_pos move) "drop" then
    let piece :=
      match jm_piece_type move with
      | String c _ => String c EmptyString
      | EmptyString => "P"
      end in
    to_coord ← usi_coord (to_pos move);
    Ok (piece +:+ "*" +:+ to_coord)
  else
    from_coord ← usi_coord (from_pos move);
    to_coord ← usi_coord (to_pos move);
    let notation := from_coord +:+ to_coord in
    Ok (if promote move then notation +:+ "+" else notation).

(** ** convert_move *)

Definition convert_move (move : JsonMove) (fen : string)
    (opening_name : string) : result ConvertedMove :=
  if String.eqb (from_pos move) "drop" then
    '(to_row, to_col) ← convert_coordinate (to_pos move);
    let piece_type := determine_piece_type move fen opening_name in
    let weight := assign_weight move opening_name in
    let evaluation := assign_evaluation move opening_name in
    move_notation ← generate_move_notation move opening_name;
    Ok {| from_row := 0; from_col := 0;
          to_row := to_row; to_col := to_col;
          piece_type := piece_type;
          is_drop := true;
          is_promotion := promote move;
          weight := weight;
          evaluation := evaluation;
          opening_name := opening_name;
          move_notation := move_notation |}
  else
    '(from_row, from_col) ← convert_coordinate (from_pos move);
    '(to_row, to_col) ← convert_coordinate (to_pos move);
    let piece_type := determine_piece_type move fen opening_name in
    let weight := assign_weight move opening_name in
    let evaluation := assign_evaluation move opening_name in
    move_notation ← generate_move_notation move opening_name;
    Ok {| from_row := from_row; from_col := from_col;
          to_row := to_row; to_col := to_col;
          piece_type := piece_type;
          is_drop := false;
          is_promotion := promote move;
          weight := weight;
          evaluation := evaluation;
          opening_name := opening_name;
          move_notation := move_notation |}.

(** ** convert_opening and convert_json_file *)

(** One move object of the input: every key is optional and read with
    [.get(key, default)]. *)
Record move_data : Type := mkMoveData {
  md_from : option string;
  md_to : option string;
  md_promote : option bool;
  md_pieceType : option string
}.

(** [JsonOpening]: [moves] is a dict from position identifier to move list,
    kept in insertion order. The keys of a dict are distinct; a property that
    relies on it assumes [NoDup] of the keys. *)
Record JsonOpening : Type := mkJsonOpening {
  name : string;
  jo_moves : list (string * list move_data)
}.

Definition parse_move (md : move_data) : JsonMove :=
  {| from_pos := default EmptyString (md_from md);
     to_pos := default EmptyString (md_to md);
     promote := default false (md_promote md);
     jm_piece_type := default EmptyString (md_pieceType md) |}.

Definition convert_opening (opening : JsonOpening)
    : result (list ConvertedPosition) :=
  mapM (fun '(fen, moves) =>
          converted_moves ←
            mapM (fun md => convert_move (parse_move md) fen (name opening))
                 moves;
          Ok {| fen := fen; moves := converted_moves |})
       (jo_moves opening).

(** One opening record of the loaded file; [opening_data["name"]] and
    [opening_data["moves"]] raise [KeyError] on a missing key. *)
Record opening_data : Type := mkOpeningData {
  od_name : option string;
  od_moves : option (list (string * list move_data))
}.

Definition subscript {A} (field : option A) (key : string) : result A :=
  match field with
  | Some v => Ok v
  | None => Raise (KeyError key)
  end.

(** The loop of [convert_json_file] over the loaded [data], with the
    accumulator [all_positions]. *)
Fixpoint convert_json_loop (data : list opening_data)
    (all_positions : list ConvertedPosition)
    : result (list ConvertedPosition) :=
  match data with
  | [] => Ok all_positions
  | od :: rest =>
      nm ← subscript (od_name od) "name";
      mvs ← subscript (od_moves od) "moves";
      positions ← convert_opening {| name := nm; jo_moves := mvs |};
      convert_json_loop rest (all_positions ++ positions)
  end.

(** [convert_json_file], on the value [json.load] returned. *)
Definition convert_json_file (data : list opening_data)
    : result (list ConvertedPosition) :=
  convert_json_loop data [].

(** ** generate_rust_code *)

(** The one-character string holding a double quote. *)
Definition dquote : string := String (ascii_of_nat 34) EmptyString.

Definition str_bool_lower (b : bool) : string :=
  if b then "true" else "false".

Definition from_str (move_data : ConvertedMove) : string :=
  if is_drop move_data then "None"
  else "Some(Position::new(" +:+ pretty (from_row move_data) +:+ ", "
       +:+ pretty (from_col move_data) +:+ "))".

Definition rust_move_lines (move_data : ConvertedMove) : list string :=
  [ "        BookMove::new_with_metadata(";
    "            " +:+ from_str move_data +:+ ",";
    "            Position::new(" +:+ pretty (to_row move_data) +:+ ", "
      +:+ pretty (to_col move_data) +:+ "),";
    "            PieceType::" +:+ piece_type move_data +:+ ",";
    "            " +:+ str_bool_lower (is_drop move_data) +:+ ",";
    "            " +:+ str_bool_lower (is_promotion move_data) +:+ ",";
    "            " +:+ pretty (weight move_data) +:+ ",";
    "            " +:+ pretty (evaluation move_data) +:+ ",";
    "            Some(" +:+ dquote +:+ opening_name move_data +:+ dquote
      +:+ ".to_string()),";
    "            Some(" +:+ dquote +:+ move_notation move_data +:+ dquote
      +:+ ".to_string()),";
    "        )," ].

Definition newline : string := String (ascii_of_nat 10) EmptyString.

Definition rust_position_lines (pos : ConvertedPosition) : list string :=
  ([ "    // Position: " +:+ fen pos;
     "    let moves = vec![" ]
   ++ concat (map rust_move_lines (moves pos))
   ++ [ "    ];";
        "    book.add_position(" +:+ dquote +:+ fen pos +:+ dquote
          +:+ ".to_string(), moves);";
        EmptyString ])%list.

Definition generate_rust_code (positions : list ConvertedPosition) : string :=
  let rust_code :=
    ([ "use crate::opening_book::*;";
      "use crate::types::*;";
      EmptyString;
      "pub fn create_opening_book() -> OpeningBook {";
      "    let mut book = OpeningBook::new();";
      EmptyString ]
    ++ concat (map rust_position_lines positions)
    ++ [ "    book.mark_loaded()";
         "}" ])%list in
  String.concat newline rust_code.

(** ** generate_migration_report *)

(** A counting dict in insertion order, with [d.get(k, 0)] and [d[k] = v]. *)
Definition counts : Type := list (string * Z).

Fixpoint counts_get (d : counts) (k : string) (dflt : Z) : Z :=
  match d with
  | [] => dflt
  | (k', v) :: d' => if String.eqb k' k then v else counts_get d' k dflt
  end.

Fixpoint counts_set (d : counts) (k : string) (v : Z) : counts :=
  match d with
  | [] => [(k, v)]
  | (k', v') :: d' =>
      if String.eqb k' k then (k', v) :: d' else (k', v') :: counts_set d' k v
  end.

(** [sorted(d.items(), key=lambda x: x[1], reverse=True)]: the stable sort
    by descending count (items with equal counts keep their order). *)
Fixpoint insert_desc (x : string * Z) (l : list (string * Z))
    : list (string * Z) :=
  match l with
  | [] => [x]
  | y :: l' => if snd x <? snd y then y :: insert_desc x l' else x :: y :: l'
  end.

Definition sorted_by_count_desc (items : list (string * Z))
    : list (string * Z) :=
  foldr insert_desc [] items.

(** The state of the counting loop. [weight_distribution] always holds the
    three keys it is created with, so [d[k] += 1] never raises. *)
Record report_state : Type := mkReportState {
  opening_counts : counts;
  piece_type_counts : counts;
  weight_distribution : gmap string Z
}.

Definition initial_report_state : report_state :=
  {| opening_counts := [];
     piece_type_counts := [];
     weight_distribution :=
       <["high" := 0]> (<["medium" := 0]> (<["low" := 0]> ∅)) |}.

Definition increment (k : string) (d : gmap string Z) : gmap string Z :=
  alter (fun n => n + 1) k d.

(** The body of the inner loop, for one move. *)
Definition count_move (st : report_state) (move_data : ConvertedMove)
    : report_state :=
  let oc := counts_set (opening_counts st) (opening_name move_data)
              (counts_get (opening_counts st) (opening_name move_data) 0 + 1) in
  let pc := counts_set (piece_type_counts st) (piece_type move_data)
              (counts_get (piece_type_counts st) (piece_type move_data) 0 + 1) in
  let wd :=
    if 800 <=? weight move_data then increment "high" (weight_distribution st)
    else if 500 <=? weight move_data
    then increment "medium" (weight_distribution st)
    else increment "low" (weight_distribution st) in
  {| opening_counts := oc; piece_type_counts := pc;
     weight_distribution := wd |}.

Definition count_position (st : report_state) (pos : ConvertedPosition)
    : report_state :=
  fold_left count_move (moves pos) st.

Definition count_all (positions : list ConvertedPosition) : report_state :=
  fold_left count_position positions initial_report_state.

Definition total_positions (positions : list ConvertedPosition) : Z :=
  Z.of_nat (length positions).

(** [sum(len(pos.moves) for pos in positions)] *)
Definition total_moves (positions : list ConvertedPosition) : Z :=
  fold_left Z.add (map (fun pos => Z.of_nat (length (moves pos))) positions) 0.

Definition count_line (item : string * Z) : string :=
  "  " +:+ fst item +:+ ": " +:+ pretty (snd item) +:+ " moves".

Definition generate_migration_report (positions : list ConvertedPosition)
    : string :=
  let st := count_all positions in
  let wd := weight_distribution st in
  let report :=
    ([ "=== Opening Book Migration Report ===";
      "Total Positions: " +:+ pretty (total_positions positions);
      "Total Moves: " +:+ pretty (total_moves positions);
      EmptyString;
      "Opening Distribution:" ]
    ++ map count_line (sorted_by_count_desc (opening_counts st))
    ++ [ EmptyString; "Piece Type Distribution:" ]
    ++ map count_line (sorted_by_count_desc (piece_type_counts st))
    ++ [ EmptyString;
         "Weight Distribution:";
         "  High (800+): " +:+ pretty (wd !!! "high") +:+ " moves";
         "  Medium (500-799): " +:+ pretty (wd !!! "medium") +:+ " moves";
         "  Low (<500): " +:+ pretty (wd !!! "low") +:+ " moves" ])%list in
  String.concat newline report.

(** ** The piece-name table of the converter *)

Definition piece_type_mapping : gmap string string :=
  <["P" := "Pawn"]> (<["L" := "Lance"]> (<["N" := "Knight"]>
  (<["S" := "Silver"]> (<["G" := "Gold"]> (<["B" := "Bishop"]>
  (<["R" := "Rook"]> (<["K" := "King"]>
  (<["+P" := "PromotedPawn"]> (<["+L" := "PromotedLance"]>
  (<["+N" := "PromotedKnight"]> (<["+S" := "PromotedSilver"]>
  (<["+B" := "PromotedBishop"]> (<["+R" := "PromotedRook"]> ∅))))))))))))).

(** ** The heuristics of scripts/generate_opening_book.py *)

(** [opening_patterns], a dict iterated in insertion order. *)
Definition opening_patterns : list (string * list string) :=
  [ ("Yagura", ["77"; "76"; "69"; "78"]);
    ("Aggressive Rook", ["27"; "26"; "25"]);
    ("Kakugawari", ["22"; "88"]);
    ("Shikenbisya", ["28"; "58"]);
    ("Aigakari", ["39"; "28"]) ].

(** [s.split(sep)[0]]: the text before the first separator, or all of [s]
    when it holds none. *)
Fixpoint split_head (sep : ascii) (s : string) : string :=
  match s with
  | EmptyString => EmptyString
  | String c s' =>
      if Ascii.eqb c sep then EmptyString else String c (split_head sep s')
  end.

(** The loop of [classify_opening] over the items of the pattern dict. *)
Fixpoint classify_loop (patterns : list (string * list string))
    (from_square : string) : string :=
  match patterns with
  | [] => "Other"
  | (opening, pats) :: rest =>
      if str_in from_square pats then opening
      else classify_loop rest from_square
  end.

Definition classify_opening (move : string) : string :=
  let from_square := split_head "-" move in
  classify_loop opening_patterns from_square.



(** ** Definitions used to state the properties *)

Definition promotion_or_drop_bonus (move : JsonMove) : Z :=
  if promote move then 100
  else if decide (from_pos move = "drop") then 50
  else 0.

(** The per-opening allow-list of source squares. *)
Definition square_bonus_allow_list : list (string * string) :=
  [ ("Aggressive Rook", "27"); ("Aggressive Rook", "26");
    ("Aggressive Rook", "25"); ("Yagura", "77"); ("Yagura", "69") ].

Definition square_bonus (move : JsonMove) (opening : string) : Z :=
  if decide ((opening, from_pos move) ∈ square_bonus_allow_list) then 50
  else 0.

(** The evaluation formula in the words of the specification: 10 for the
    bishop-exchange opening and 5 for every other opening. *)
Definition claimed_evaluation (move : JsonMove) (opening : string) : Z :=
  default 0 (evaluation_scores !! determine_move_type move opening)
  + (if decide (opening = "Kakugawari (Bishop Exchange)") then 10 else 5)
  + (if promote move then 15 else 0).

(** The opening bonus the code applies: only three openings receive one. *)
Definition opening_tier_bonus (opening : string) : Z :=
  if decide (opening = "Kakugawari (Bishop Exchange)") then 10
  else if decide (opening ∈ ["Aggressive Rook"; "Yagura"]) then 5
  else 0.

(** The position identifiers listed under one opening record. *)
Definition opening_keys (od : opening_data) : list string :=
  map fst (default [] (od_moves od)).

(** How often an identifier occurs in a list of identifiers. *)
Definition occurrences (k : string) (ids : list string) : nat :=
  length (filter (fun id => id = k) ids).

Definition count_ge (a b : string * Z) : Prop := snd b <= snd a.

(** The counting dict built by the loop for one key (the opening name or the
    piece type), starting from [d]. *)
Definition tally_step (key : ConvertedMove -> string) (d : counts)
    (m : ConvertedMove) : counts :=
  counts_set d (key m) (counts_get d (key m) 0 + 1).

Definition tally (key : ConvertedMove -> string) (ms : list ConvertedMove)
    : counts :=
  fold_left (tally_step key) ms [].

(** The number of moves in [ms] whose key is [k]. *)
Definition moves_with (key : ConvertedMove -> string) (k : string)
    (ms : list ConvertedMove) : Z :=
  Z.of_nat (length (filter (fun m => key m = k) ms)).

(** The histogram bucket of a weight. *)
Definition weight_bucket (w : Z) : string :=
  if 800 <=? w then "high" else if 500 <=? w then "medium" else "low".

Definition all_moves (positions : list ConvertedPosition)
    : list ConvertedMove :=
  concat (map moves positions).

(** Three moves with weights 900, 600 and 300 under one position. *)
Definition move_of_weight (w : Z) : ConvertedMove :=
  {| from_row := 6; from_col := 1; to_row := 5; to_col := 1;
     piece_type := "Pawn"; is_drop := false; is_promotion := false;
     weight := w; evaluation := 10; opening_name := "Test Opening";
     move_notation := "2g2f" |}.

Definition three_weights : list ConvertedPosition :=
  [ {| fen := "start";
       moves := [move_of_weight 900; move_of_weight 600; move_of_weight 300]
    |} ].

(** The piece heuristic of [determine_piece_type] as a decision table on
    whole squares. *)
Definition piece_type_table (opening from to : string) : string :=
  if decide (opening = "Aggressive Rook") then
    if decide (from ∈ ["27"; "26"; "25"]) then "Rook" else "Pawn"
  else if decide (opening = "Yagura") then
    if decide (from ∈ ["77"; "76"]) then "Pawn"
    else if decide (from = "69" \/ to = "78") then "Gold"
    else "Pawn"
  else if decide (opening = "Kakugawari (Bishop Exchange)") then
    if decide (from = "22" \/ to = "88") then "Bishop" else "Pawn"
  else "Pawn".

(** The notation of the square in zero-based [row] and [col]: the file
    digit [col + 1] followed by the rank letter, [a] for row 0. *)
Definition square_notation (row col : Z) : string :=
  String (ascii_of_N (Z.to_N (49 + col)))
    (String (ascii_of_N (Z.to_N (97 + row))) EmptyString).

(** The piece letter in the notation of a drop. *)
Definition drop_piece_letter (move : JsonMove) : string :=
  match jm_piece_type move with
  | String c _ => String c EmptyString
  | EmptyString => "P"
  end.

(** Whether a token begins with two decimal digits. *)
Definition starts_with_two_digits (s : string) : bool :=
  match s with
  | String c0 (String c1 _) =>
      bool_decide (digit_value c0 <> None)
      && bool_decide (digit_value c1 <> None)
  | _ => false
  end.

Definition is_IndexError_or_ValueError (e : exception) : Prop :=
  match e with
  | IndexError _ | ValueError _ => True
  | KeyError _ => False
  end.

(** The move lists of one opening record of the input, and the number of
    move objects in the whole input. *)
Definition opening_entries (od : opening_data)
    : list (string * list move_data) :=
  default [] (od_moves od).

Definition input_move_count (data : list opening_data) : nat :=
  sum_list_with
    (fun od => sum_list_with (fun e => length (snd e)) (opening_entries od))
    data.

(** A record that some call of [convert_move] returned. *)
Definition converted (cm : ConvertedMove) : Prop :=
  exists move fen opening, convert_move move fen opening = Ok cm.

(** The sum of the counts of a counting dict. *)
Definition counts_total (d : list (string * Z)) : Z :=
  foldr (fun item acc => snd item + acc) 0 d.

(** The keys of [l] in order of first appearance. *)
Definition first_occurrences (l : list string) : list string :=
  rev (nodup string_dec (rev l)).

(** * Properties *)

(** ** Examples: the definitions evaluated on concrete inputs *)

Example convert_coordinate_27 : convert_coordinate "27" = Ok (6, 1).
Proof. reflexivity. Qed.

Example determine_piece_type_rook :
  determine_piece_type (mkJsonMove "27" "26" false EmptyString) "fen"
    "Aggressive Rook" = "Rook".
Proof. reflexivity. Qed.

Example determine_piece_type_gold :
  determine_piece_type (mkJsonMove "69" "78" false EmptyString) "fen"
    "Yagura" = "Gold".
Proof. reflexivity. Qed.

Example convert_move_27_26 :
  convert_move (mkJsonMove "27" "26" false EmptyString) "fen" "Test Opening"
  = Ok (mkConvertedMove 6 1 5 1 "Pawn" false false 500 10 "Test Opening"
          "2g2f").
Proof. vm_compute. reflexivity. Qed.

Example convert_move_bad_square :
  convert_move (mkJsonMove "27" "20" false EmptyString) "fen" "Yagura"
  = Raise (ValueError "Coordinate out of bounds: 20").
Proof. vm_compute. reflexivity. Qed.

Example assign_weight_unknown :
  assign_weight (mkJsonMove "27" "26" false EmptyString) "Test Opening" = 500.
Proof. vm_compute. reflexivity. Qed.

(** ** Shared lemmas and tactics *)

Lemma str_in_true x l : str_in x l = true <-> x ∈ l.
Proof. unfold str_in. apply bool_decide_eq_true. Qed.

Lemma str_in_false x l : str_in x l = false <-> x ∉ l.
Proof. unfold str_in. apply bool_decide_eq_false. Qed.

(** Case analysis on every string comparison and membership test in the
    goal. *)
Ltac case_strings :=
  repeat match goal with
  | |- context [String.eqb ?a ?b] =>
      destruct (String.eqb_spec a b)
  | |- context [str_in ?x ?l] =>
      let E := fresh "E" in
      destruct (str_in x l) eqn:E;
      [apply str_in_true in E | apply str_in_false in E]
  end.

(** Settle a closed decidable proposition by evaluating its decision. *)
Ltac decide_by_compute :=
  apply (bool_decide_unpack _); vm_compute; exact I.

(** The base weight of any opening, known or not, lies between the default
    and the largest table entry. *)
Lemma base_weight_range opening :
  500 <= dict_get opening_weights opening 500 <= 850.
Proof.
  unfold dict_get, opening_weights.
  repeat (rewrite lookup_insert; case_decide; [simpl; lia |]).
  rewrite lookup_empty. simpl. lia.
Qed.

(** ** Weights *)

Lemma square_bonus_code move opening :
  (if String.eqb opening "Aggressive Rook" then
     if str_in (from_pos move) ["27"; "26"; "25"] then 50 else 0
   else if String.eqb opening "Yagura" then
     if str_in (from_pos move) ["77"; "69"] then 50 else 0
   else 0) = square_bonus move opening.
Proof.
  unfold square_bonus, square_bonus_allow_list.
  case_strings; case_decide; try reflexivity; exfalso;
    rewrite ?elem_of_cons, ?not_elem_of_cons, ?elem_of_nil in *;
    intuition congruence.
Qed.

Lemma assign_weight_unfold move opening :
  assign_weight move opening =
  Z.min (dict_get opening_weights opening 500
         + promotion_or_drop_bonus move + square_bonus move opening) 1000.
Proof.
  rewrite <- square_bonus_code.
  unfold assign_weight, promotion_or_drop_bonus.
  f_equal.
  destruct (promote move);
    [| destruct (String.eqb_spec (from_pos move) "drop");
       case_decide; try contradiction ];
    destruct (String.eqb opening "Aggressive Rook");
    try destruct (str_in (from_pos move) ["27"; "26"; "25"]);
    try destruct (String.eqb opening "Yagura");
    try destruct (str_in (from_pos move) ["77"; "69"]); lia.
Qed.

(** C1: the weight is the opening's base weight (500 for an opening outside
    the table), plus 100 for a promotion or else 50 for a drop, plus 50 when
    the opening and source square are on the allow-list, capped at 1000; so
    it always lies between 0 and 1000. *)
Theorem assign_weight_formula move opening :
  assign_weight move opening =
    Z.min (default 500 (opening_weights !! opening)
           + promotion_or_drop_bonus move + square_bonus move opening) 1000
  /\ 0 <= assign_weight move opening <= 1000.
Proof.
  rewrite assign_weight_unfold. split; [reflexivity |].
  pose proof (base_weight_range opening) as Hb.
  unfold promotion_or_drop_bonus, square_bonus.
  destruct (promote move); repeat case_decide; lia.
Qed.

(** C6: setting the promotion flag never lowers the weight of a move, all
    other fields equal. *)
Theorem assign_weight_promote_monotone from to pt opening :
  assign_weight (mkJsonMove from to false pt) opening
  <= assign_weight (mkJsonMove from to true pt) opening.
Proof.
  rewrite !assign_weight_unfold.
  unfold promotion_or_drop_bonus, square_bonus. simpl.
  repeat case_decide; lia.
Qed.

(** C10: every entry of the base-weight table is at least 500, and the
    weight of every move under every opening lies in [500, 1000]. *)
Theorem assign_weight_at_least_500 move opening :
  map_Forall (fun _ w => 500 <= w) opening_weights
  /\ 500 <= assign_weight move opening <= 1000.
Proof.
  split.
  - unfold opening_weights.
    repeat (apply map_Forall_insert_2; [lia |]).
    apply map_Forall_empty.
  - rewrite assign_weight_unfold.
    pose proof (base_weight_range opening) as Hb.
    unfold promotion_or_drop_bonus, square_bonus.
    destruct (promote move); repeat case_decide; lia.
Qed.

(** ** Move categories *)

(** C5: the move category is resolved by first match: drop, then
    promotion, then a central destination, then a king-safety destination,
    then a developing opening, and positional otherwise. *)
Theorem determine_move_type_first_match move opening :
  (from_pos move = "drop" ->
     determine_move_type move opening = "tactical")
  /\ (from_pos move <> "drop" -> promote move = true ->
     determine_move_type move opening = "tactical")
  /\ (from_pos move <> "drop" -> promote move = false ->
      to_pos move ∈ ["44"; "45"; "54"; "55"] ->
     determine_move_type move opening = "central_control")
  /\ (from_pos move <> "drop" -> promote move = false ->
      to_pos move ∉ ["44"; "45"; "54"; "55"] ->
      to_pos move ∈ ["77"; "78"; "87"; "88"] ->
     determine_move_type move opening = "king_safety")
  /\ (from_pos move <> "drop" -> promote move = false ->
      to_pos move ∉ ["44"; "45"; "54"; "55"] ->
      to_pos move ∉ ["77"; "78"; "87"; "88"] ->
      opening ∈ ["Yagura"; "Aggressive Rook"] ->
     determine_move_type move opening = "development")
  /\ (from_pos move <> "drop" -> promote move = false ->
      to_pos move ∉ ["44"; "45"; "54"; "55"] ->
      to_pos move ∉ ["77"; "78"; "87"; "88"] ->
      opening ∉ ["Yagura"; "Aggressive Rook"] ->
     determine_move_type move opening = "positional").
Proof.
  unfold determine_move_type, central_squares, king_safety_moves.
  repeat split; intros;
    repeat match goal with
    | H : promote _ = _ |- _ => rewrite H
    end;
    case_strings; try reflexivity; contradiction.
Qed.

Lemma determine_move_type_first_match_witness :
  let drop := mkJsonMove "drop" "55" false "P" in
  let promo := mkJsonMove "23" "22" true EmptyString in
  let quiet to := mkJsonMove "27" to false EmptyString in
  determine_move_type drop "Yagura" = "tactical"
  /\ determine_move_type promo "Yagura" = "tactical"
  /\ determine_move_type (quiet "55") "Yagura" = "central_control"
  /\ determine_move_type (quiet "78") "Yagura" = "king_safety"
  /\ determine_move_type (quiet "26") "Yagura" = "development"
  /\ determine_move_type (quiet "26") "Test Opening" = "positional".
Proof.
  intros drop promo quiet.
  split; [| split; [| split; [| split; [| split]]]].
  - destruct (determine_move_type_first_match drop "Yagura") as [H _].
    apply H. reflexivity.
  - destruct (determine_move_type_first_match promo "Yagura")
      as (_ & H & _).
    apply H; [discriminate | reflexivity].
  - destruct (determine_move_type_first_match (quiet "55") "Yagura")
      as (_ & _ & H & _).
    apply H; [discriminate | reflexivity |].
    decide_by_compute.
  - destruct (determine_move_type_first_match (quiet "78") "Yagura")
      as (_ & _ & _ & H & _).
    apply H; [discriminate | reflexivity | |];
      decide_by_compute.
  - destruct (determine_move_type_first_match (quiet "26") "Yagura")
      as (_ & _ & _ & _ & H & _).
    apply H; [discriminate | reflexivity | | |];
      decide_by_compute.
  - destruct (determine_move_type_first_match (quiet "26") "Test Opening")
      as (_ & _ & _ & _ & _ & H).
    apply H; [discriminate | reflexivity | | |];
      decide_by_compute.
Defined.

(** ** Evaluation scores *)

(** Every category [determine_move_type] returns has a score in the table. *)
Lemma move_type_in_table move opening :
  determine_move_type move opening ∈
    ["tactical"; "central_control"; "king_safety"; "development";
     "positional"].
Proof.
  unfold determine_move_type.
  destruct (String.eqb (from_pos move) "drop"); [decide_by_compute |].
  destruct (promote move); [decide_by_compute |].
  destruct (str_in (to_pos move) central_squares); [decide_by_compute |].
  destruct (str_in (to_pos move) king_safety_moves); [decide_by_compute |].
  destruct (str_in opening ["Yagura"; "Aggressive Rook"]); decide_by_compute.
Qed.

Lemma move_type_score move opening :
  exists base,
    evaluation_scores !! determine_move_type move opening = Some base
    /\ 10 <= base <= 30.
Proof.
  pose proof (move_type_in_table move opening) as H.
  rewrite !elem_of_cons, elem_of_nil in H.
  destruct H as [-> | [-> | [-> | [-> | [-> | []]]]]];
    eexists; (split; [vm_compute; reflexivity | lia]).
Qed.

(** C2, as stated, fails: an opening outside the three named ones receives
    no opening bonus, not 5. *)
Lemma assign_evaluation_unnamed_opening_no_bonus :
  let move := mkJsonMove "27" "26" false EmptyString in
  assign_evaluation move "Test Opening" = 10
  /\ claimed_evaluation move "Test Opening" = 15
  /\ assign_evaluation move "Test Opening"
     <> claimed_evaluation move "Test Opening".
Proof. repeat split; vm_compute; congruence. Qed.

(** C2, amended: the evaluation is the category's score from the table,
    plus 10 for the bishop-exchange opening, 5 for Aggressive Rook and
    Yagura and nothing for any other opening, plus 15 for a promotion; no
    cap is applied. *)
Theorem assign_evaluation_formula move opening :
  exists base,
    evaluation_scores !! determine_move_type move opening = Some base
    /\ assign_evaluation move opening =
         base + opening_tier_bonus opening
         + (if promote move then 15 else 0).
Proof.
  destruct (move_type_score move opening) as (base & Hbase & _).
  exists base. split; [exact Hbase |].
  unfold assign_evaluation, dict_get, opening_tier_bonus.
  rewrite Hbase. simpl.
  case_strings; repeat case_decide; subst;
    rewrite ?elem_of_cons, ?not_elem_of_cons, ?elem_of_nil in *;
    try (exfalso; intuition congruence);
    destruct (promote move); lia.
Qed.

(** ** Coordinates *)

Lemma convert_coordinate_two c0 c1 :
  convert_coordinate (String c0 (String c1 EmptyString)) =
  match digit_value c0 with
  | None => Raise (ValueError "invalid literal for int() with base 10")
  | Some d0 =>
      match digit_value c1 with
      | None => Raise (ValueError "invalid literal for int() with base 10")
      | Some d1 =>
          if decide (1 <= d1 <= 9 /\ 1 <= d0 <= 9) then Ok (d1 - 1, d0 - 1)
          else Raise (ValueError
                 ("Coordinate out of bounds: "
                  +:+ String c0 (String c1 EmptyString)))
      end
  end.
Proof.
  unfold convert_coordinate, py_int. cbn [len String.length Z.of_nat].
  change (negb (Z.of_nat 2 =? 2)) with false. cbv iota.
  cbn [str_index String.get mbind result_bind].
  destruct (digit_value c0) as [d0 |]; [| reflexivity].
  cbn [mbind result_bind].
  destruct (digit_value c1) as [d1 |]; [| reflexivity].
  cbn [mbind result_bind].
  case_decide as Hr.
  - replace (negb ((0 <=? d1 - 1) && (d1 - 1 <=? 8))
             || negb ((0 <=? d0 - 1) && (d0 - 1 <=? 8))) with false;
      [reflexivity |].
    symmetry. apply orb_false_iff. rewrite !negb_false_iff, !andb_true_iff.
    lia.
  - replace (negb ((0 <=? d1 - 1) && (d1 - 1 <=? 8))
             || negb ((0 <=? d0 - 1) && (d0 - 1 <=? 8))) with true;
      [reflexivity |].
    symmetry. apply orb_true_iff. rewrite !negb_true_iff, !andb_false_iff.
    lia.
Qed.

Lemma convert_coordinate_bad_length coord :
  String.length coord <> 2%nat ->
  convert_coordinate coord =
    Raise (ValueError ("Invalid coordinate format: " +:+ coord)).
Proof.
  intros Hlen. unfold convert_coordinate, len.
  destruct (Z.eqb_spec (Z.of_nat (String.length coord)) 2) as [E | E];
    [lia | reflexivity].
Qed.

Lemma length_two (s : string) :
  String.length s = 2%nat ->
  exists c0 c1, s = String c0 (String c1 EmptyString).
Proof.
  destruct s as [| c0 [| c1 [| c2 s]]]; simpl; try discriminate.
  eauto.
Qed.

Lemma convert_coordinate_Ok_inv coord row col :
  convert_coordinate coord = Ok (row, col) ->
  0 <= row <= 8 /\ 0 <= col <= 8
  /\ exists c0 c1,
       coord = String c0 (String c1 EmptyString)
       /\ digit_value c0 = Some (col + 1)
       /\ digit_value c1 = Some (row + 1).
Proof.
  intros H.
  destruct (decide (String.length coord = 2%nat)) as [Hlen | Hlen];
    [| rewrite (convert_coordinate_bad_length _ Hlen) in H; discriminate].
  destruct (length_two _ Hlen) as (c0 & c1 & ->).
  rewrite convert_coordinate_two in H.
  destruct (digit_value c0) as [d0 |] eqn:E0; [| discriminate].
  destruct (digit_value c1) as [d1 |] eqn:E1; [| discriminate].
  case_decide; [| discriminate]. injection H as <- <-.
  split; [lia |]. split; [lia |].
  exists c0, c1. rewrite E0, E1.
  repeat split; f_equal; lia.
Qed.

(** C3: a two-character token whose characters decode to a column and a row
    in 1..9 yields the zero-based (row, col) pair, both within 0..8; a token
    of any other length, or one decoding outside that range, raises
    [ValueError]; the function returns a pair in no other case and raises no
    other exception. *)
Theorem convert_coordinate_spec coord :
  (forall c0 c1 row col,
      coord = String c0 (String c1 EmptyString) ->
      digit_value c0 = Some (col + 1) -> digit_value c1 = Some (row + 1) ->
      0 <= row <= 8 -> 0 <= col <= 8 ->
      convert_coordinate coord = Ok (row, col))
  /\ (String.length coord <> 2%nat ->
      exists msg, convert_coordinate coord = Raise (ValueError msg))
  /\ (forall c0 c1 d0 d1,
      coord = String c0 (String c1 EmptyString) ->
      digit_value c0 = Some d0 -> digit_value c1 = Some d1 ->
      ~ (0 <= d1 - 1 <= 8 /\ 0 <= d0 - 1 <= 8) ->
      exists msg, convert_coordinate coord = Raise (ValueError msg))
  /\ (forall row col,
      convert_coordinate coord = Ok (row, col) ->
      0 <= row <= 8 /\ 0 <= col <= 8
      /\ exists c0 c1,
           coord = String c0 (String c1 EmptyString)
           /\ digit_value c0 = Some (col + 1)
           /\ digit_value c1 = Some (row + 1))
  /\ (forall e, convert_coordinate coord = Raise e -> is_ValueError e).
Proof.
  split; [| split; [| split; [| split]]].
  - intros c0 c1 row col -> H0 H1 Hr Hc.
    rewrite convert_coordinate_two, H0, H1.
    case_decide; [f_equal; f_equal; lia | lia].
  - intros Hlen. rewrite (convert_coordinate_bad_length _ Hlen). eauto.
  - intros c0 c1 d0 d1 -> H0 H1 Hout.
    rewrite convert_coordinate_two, H0, H1.
    case_decide; [lia | eauto].
  - apply convert_coordinate_Ok_inv.
  - intros e.
    destruct (decide (String.length coord = 2%nat)) as [Hlen | Hlen];
      [| rewrite (convert_coordinate_bad_length _ Hlen);
         intros [= <-]; exact I].
    destruct (length_two _ Hlen) as (c0 & c1 & ->).
    rewrite convert_coordinate_two.
    destruct (digit_value c0), (digit_value c1);
      try (intros [= <-]; exact I).
    case_decide; [discriminate | intros [= <-]; exact I].
Qed.

Lemma convert_coordinate_spec_witness :
  convert_coordinate "27" = Ok (6, 1)
  /\ (exists msg, convert_coordinate "270" = Raise (ValueError msg))
  /\ (exists msg, convert_coordinate "20" = Raise (ValueError msg))
  /\ (0 <= 6 <= 8 /\ 0 <= 1 <= 8)
  /\ is_ValueError (ValueError "Invalid coordinate format: 2").
Proof.
  split; [| split; [| split; [| split]]].
  - destruct (convert_coordinate_spec "27") as (H & _).
    apply (H "2"%char "7"%char 6 1); [reflexivity .. | lia | lia].
  - destruct (convert_coordinate_spec "270") as (_ & H & _).
    apply H. simpl. lia.
  - destruct (convert_coordinate_spec "20") as (_ & _ & H & _).
    apply (H "2"%char "0"%char 2 0); [reflexivity .. | lia].
  - destruct (convert_coordinate_spec "27") as (_ & _ & _ & H & _).
    destruct (H 6 1) as (Hr & Hc & _); [reflexivity | exact (conj Hr Hc)].
  - destruct (convert_coordinate_spec "2") as (_ & _ & _ & _ & H).
    apply H. reflexivity.
Defined.

(** C8, as stated, fails: the algebraic token "7g" is rejected. *)
Lemma convert_coordinate_rejects_7g :
  convert_coordinate "7g" =
    Raise (ValueError "invalid literal for int() with base 10")
  /\ forall rc, convert_coordinate "7g" <> Ok rc.
Proof. split; [reflexivity | intros rc; vm_compute; discriminate]. Qed.

(** C8, amended: [convert_coordinate] takes the token alone and reads it in
    the pure-digit dialect only: a token of two digits 1..9 yields the
    in-range pair, and every two-character token whose second character is a
    rank letter a..i raises [ValueError]. *)
Theorem convert_coordinate_digit_dialect_only c0 c1 :
  (forall file rank,
      digit_value c0 = Some file -> digit_value c1 = Some rank ->
      1 <= file <= 9 -> 1 <= rank <= 9 ->
      convert_coordinate (String c0 (String c1 EmptyString))
        = Ok (rank - 1, file - 1))
  /\ (ord "a" <= ord c1 <= ord "i" ->
      exists msg,
        convert_coordinate (String c0 (String c1 EmptyString))
          = Raise (ValueError msg)).
Proof.
  split.
  - intros file rank H0 H1 Hf Hr.
    rewrite convert_coordinate_two, H0, H1.
    case_decide; [reflexivity | lia].
  - intros Hletter. rewrite convert_coordinate_two.
    assert (digit_value c1 = None) as ->.
    { unfold digit_value. unfold ord in Hletter.
      change (Z.of_N (N_of_ascii "a")) with 97 in Hletter.
      change (Z.of_N (N_of_ascii "i")) with 105 in Hletter.
      destruct (Z.leb_spec (Z.of_N (N_of_ascii c1)) 57);
        [lia | rewrite andb_false_r; reflexivity]. }
    destruct (digit_value c0); eauto.
Qed.

Lemma convert_coordinate_digit_dialect_only_witness :
  convert_coordinate "27" = Ok (7 - 1, 2 - 1)
  /\ exists msg, convert_coordinate "7g" = Raise (ValueError msg).
Proof.
  split.
  - destruct (convert_coordinate_digit_dialect_only "2" "7") as [H _].
    apply (H 2 7); [reflexivity | reflexivity | lia | lia].
  - destruct (convert_coordinate_digit_dialect_only "7" "g") as [_ H].
    apply H. vm_compute. split; discriminate.
Defined.

(** ** Converted moves *)

(** The notation of a square that [convert_coordinate] accepts is always
    produced. *)
Lemma usi_coord_total coord row col :
  convert_coordinate coord = Ok (row, col) ->
  exists n, usi_coord coord = Ok n.
Proof.
  intros H. apply convert_coordinate_Ok_inv in H.
  destruct H as (Hr & Hc & c0 & c1 & -> & H0 & H1).
  unfold usi_coord, py_int.
  cbn [str_index String.get mbind result_bind]. rewrite H0.
  cbn [mbind result_bind]. rewrite H1. cbn [mbind result_bind].
  unfold chr. change (ord "a") with 97.
  destruct (Z.leb_spec 0 (97 + (row + 1) - 1)); [| lia].
  destruct (Z.ltb_spec (97 + (row + 1) - 1) 256); [| lia].
  cbn [andb mbind result_bind]. eauto.
Qed.

(** What [convert_move] returns on a drop and on an ordinary move. *)
Lemma convert_move_drop move fen opening :
  from_pos move = "drop" ->
  convert_move move fen opening =
    '(to_row, to_col) ← convert_coordinate (to_pos move);
    move_notation ← generate_move_notation move opening;
    Ok (mkConvertedMove 0 0 to_row to_col
          (determine_piece_type move fen opening) true (promote move)
          (assign_weight move opening) (assign_evaluation move opening)
          opening move_notation).
Proof.
  intros Hd. unfold convert_move. rewrite Hd. reflexivity.
Qed.

Lemma convert_move_not_drop move fen opening :
  from_pos move <> "drop" ->
  convert_move move fen opening =
    '(from_row, from_col) ← convert_coordinate (from_pos move);
    '(to_row, to_col) ← convert_coordinate (to_pos move);
    move_notation ← generate_move_notation move opening;
    Ok (mkConvertedMove from_row from_col to_row to_col
          (determine_piece_type move fen opening) false (promote move)
          (assign_weight move opening) (assign_evaluation move opening)
          opening move_notation).
Proof.
  intros Hd. unfold convert_move.
  destruct (String.eqb_spec (from_pos move) "drop"); [contradiction |].
  reflexivity.
Qed.

(** C4, as stated, fails: the record of a drop carries the square (0, 0),
    the same origin fields as a move that really starts from "11". *)
Lemma convert_move_drop_carries_zero_origin :
  exists dropped moved,
    convert_move (mkJsonMove "drop" "55" false "P") "fen" "Yagura"
      = Ok dropped
    /\ convert_move (mkJsonMove "11" "12" false EmptyString) "fen" "Yagura"
      = Ok moved
    /\ is_drop dropped = true /\ is_drop moved = false
    /\ from_row dropped = 0 /\ from_col dropped = 0
    /\ from_row moved = 0 /\ from_col moved = 0.
Proof.
  eexists _, _.
  split; [vm_compute; reflexivity |].
  split; [vm_compute; reflexivity |].
  repeat split.
Qed.

(** The record block of one move in the rendered text: its second line
    is the origin. *)
Lemma rust_move_lines_origin cm :
  rust_move_lines cm =
  ([ "        BookMove::new_with_metadata(";
     "            "
     +:+ (if is_drop cm then "None"
          else "Some(Position::new(" +:+ pretty (from_row cm) +:+ ", "
               +:+ pretty (from_col cm) +:+ "))")
     +:+ "," ]
   ++ drop 2 (rust_move_lines cm))%list.
Proof. reflexivity. Qed.

(** The rendered text around one move of one position of the catalog. *)
Lemma generate_rust_code_at p1 f m1 cm m2 p2 :
  generate_rust_code (p1 ++ {| fen := f; moves := m1 ++ cm :: m2 |} :: p2) =
  String.concat newline
    ([ "use crate::opening_book::*;";
       "use crate::types::*;";
       EmptyString;
       "pub fn create_opening_book() -> OpeningBook {";
       "    let mut book = OpeningBook::new();";
       EmptyString ]
     ++ concat (map rust_position_lines p1)
     ++ [ "    // Position: " +:+ f; "    let moves = vec![" ]
     ++ concat (map rust_move_lines m1)
     ++ rust_move_lines cm
     ++ concat (map rust_move_lines m2)
     ++ [ "    ];";
          "    book.add_position(" +:+ dquote +:+ f +:+ dquote
            +:+ ".to_string(), moves);";
          EmptyString ]
     ++ concat (map rust_position_lines p2)
     ++ [ "    book.mark_loaded()"; "}" ])%list.
Proof.
  unfold generate_rust_code. f_equal.
  rewrite map_app, concat_app. cbn [map concat].
  unfold rust_position_lines at 2. cbn [fen moves].
  rewrite map_app, concat_app. cbn [map concat].
  repeat rewrite <- app_assoc. reflexivity.
Qed.

(** C4, amended: in the record [convert_move] returns, [is_drop] is set
    exactly for a drop; the record of a drop carries the placeholder origin
    (0, 0) and the record of any other move its converted origin square; in
    the text [generate_rust_code] renders, the origin line of a move reads
    [None] exactly when [is_drop] is set and
    [Some(Position::new(from_row, from_col))] otherwise, so a drop is
    rendered differently from a move whose origin is the square (0, 0). *)
Theorem convert_move_drop_origin move fen opening cm :
  convert_move move fen opening = Ok cm ->
  let origin :=
    if is_drop cm then "None"
    else "Some(Position::new(" +:+ pretty (from_row cm) +:+ ", "
         +:+ pretty (from_col cm) +:+ "))" in
  (is_drop cm = true <-> from_pos move = "drop")
  /\ (is_drop cm = true -> from_row cm = 0 /\ from_col cm = 0)
  /\ (is_drop cm = false ->
      convert_coordinate (from_pos move) = Ok (from_row cm, from_col cm))
  /\ (from_str cm = "None" <-> is_drop cm = true)
  /\ (origin = "None" <-> is_drop cm = true)
  /\ (is_drop cm = false -> from_row cm = 0 -> from_col cm = 0 ->
      origin = "Some(Position::new(0, 0))")
  /\ rust_move_lines cm !! 1%nat = Some ("            " +:+ origin +:+ ",")
  /\ (forall p1 f m1 m2 p2,
        generate_rust_code
          (p1 ++ {| fen := f; moves := m1 ++ cm :: m2 |} :: p2) =
        String.concat newline
          ([ "use crate::opening_book::*;";
             "use crate::types::*;";
             EmptyString;
             "pub fn create_opening_book() -> OpeningBook {";
             "    let mut book = OpeningBook::new();";
             EmptyString ]
           ++ concat (map rust_position_lines p1)
           ++ [ "    // Position: " +:+ f; "    let moves = vec![" ]
           ++ concat (map rust_move_lines m1)
           ++ [ "        BookMove::new_with_metadata(";
                "            " +:+ origin +:+ "," ]
           ++ drop 2 (rust_move_lines cm)
           ++ concat (map rust_move_lines m2)
           ++ [ "    ];";
                "    book.add_position(" +:+ dquote +:+ f +:+ dquote
                  +:+ ".to_string(), moves);";
                EmptyString ]
           ++ concat (map rust_position_lines p2)
           ++ [ "    book.mark_loaded()"; "}" ])%list).
Proof.
  intros H. cbn zeta.
  assert ((is_drop cm = true <-> from_pos move = "drop")
          /\ (is_drop cm = true -> from_row cm = 0 /\ from_col cm = 0)
          /\ (is_drop cm = false ->
              convert_coordinate (from_pos move)
              = Ok (from_row cm, from_col cm))) as (H1 & H2 & H3).
  { destruct (decide (from_pos move = "drop")) as [Hd | Hd].
    - rewrite (convert_move_drop _ _ _ Hd) in H.
      destruct (convert_coordinate (to_pos move)) as [[r c] |];
        [| discriminate].
      cbn [mbind result_bind] in H.
      destruct (generate_move_notation move opening); [| discriminate].
      cbn [mbind result_bind] in H. injection H as <-. cbn.
      repeat split; auto; discriminate.
    - rewrite (convert_move_not_drop _ _ _ Hd) in H.
      destruct (convert_coordinate (from_pos move)) as [[fr fc] |];
        [| discriminate].
      cbn [mbind result_bind] in H.
      destruct (convert_coordinate (to_pos move)) as [[r c] |];
        [| discriminate].
      cbn [mbind result_bind] in H.
      destruct (generate_move_notation move opening); [| discriminate].
      cbn [mbind result_bind] in H. injection H as <-. cbn.
      repeat split; auto; try discriminate; try contradiction. }
  split; [exact H1 |]. split; [exact H2 |]. split; [exact H3 |].
  split; [| split; [| split; [| split]]].
  - unfold from_str. destruct (is_drop cm); cbn; split; auto; discriminate.
  - destruct (is_drop cm); cbn; split; auto; discriminate.
  - intros -> -> ->. reflexivity.
  - rewrite rust_move_lines_origin. reflexivity.
  - intros p1 f m1 m2 p2.
    rewrite generate_rust_code_at, (rust_move_lines_origin cm) at 1.
    rewrite <- (app_assoc _ (drop 2 (rust_move_lines cm))). reflexivity.
Qed.

Lemma convert_move_drop_origin_witness :
  let cm := mkConvertedMove 0 0 4 4 "Pawn" true false 850 35 "Yagura" "P*5e" in
  convert_move (mkJsonMove "drop" "55" false "P") "fen" "Yagura" = Ok cm
  /\ (is_drop cm = true <-> "drop" = "drop")
  /\ (is_drop cm = true -> from_row cm = 0 /\ from_col cm = 0)
  /\ rust_move_lines cm !! 1%nat = Some "            None,"
  /\ generate_rust_code [ {| fen := "fen"; moves := [cm] |} ] =
     String.concat newline
       [ "use crate::opening_book::*;";
         "use crate::types::*;";
         EmptyString;
         "pub fn create_opening_book() -> OpeningBook {";
         "    let mut book = OpeningBook::new();";
         EmptyString;
         "    // Position: fen";
         "    let moves = vec![";
         "        BookMove::new_with_metadata(";
         "            None,";
         "            Position::new(4, 4),";
         "            PieceType::Pawn,";
         "            true,";
         "            false,";
         "            850,";
         "            35,";
         "            Some(" +:+ dquote +:+ "Yagura" +:+ dquote
           +:+ ".to_string()),";
         "            Some(" +:+ dquote +:+ "P*5e" +:+ dquote
           +:+ ".to_string()),";
         "        ),";
         "    ];";
         "    book.add_position(" +:+ dquote +:+ "fen" +:+ dquote
           +:+ ".to_string(), moves);";
         EmptyString;
         "    book.mark_loaded()";
         "}" ].
Proof.
  intros cm.
  assert (convert_move (mkJsonMove "drop" "55" false "P") "fen" "Yagura"
          = Ok cm) as H by (vm_compute; reflexivity).
  destruct (convert_move_drop_origin _ _ _ _ H)
    as (H1 & H2 & _ & _ & _ & _ & H7 & H8).
  split; [exact H |]. split; [exact H1 |]. split; [exact H2 |].
  split; [exact H7 |].
  pose proof (H8 [] "fen" [] [] []) as HR.
  change ([] ++ [ {| fen := "fen"; moves := [] ++ [cm] |} ])%list
    with [ {| fen := "fen"; moves := [cm] |} ] in HR.
  rewrite HR. vm_compute. reflexivity.
Defined.

Lemma generate_move_notation_drop_total move opening row col :
  from_pos move = "drop" ->
  convert_coordinate (to_pos move) = Ok (row, col) ->
  exists n, generate_move_notation move opening = Ok n.
Proof.
  intros Hd Hto. unfold generate_move_notation. rewrite Hd.
  destruct (usi_coord_total _ _ _ Hto) as [n ->].
  cbn. eauto.
Qed.

(** A drop onto a valid square is always converted. *)
Lemma convert_move_drop_total move fen opening row col :
  from_pos move = "drop" ->
  convert_coordinate (to_pos move) = Ok (row, col) ->
  exists cm, convert_move move fen opening = Ok cm /\ is_drop cm = true.
Proof.
  intros Hd Hto. rewrite (convert_move_drop _ _ _ Hd), Hto.
  destruct (generate_move_notation_drop_total _ opening _ _ Hd Hto)
    as [n ->].
  cbn. eauto.
Qed.

(** ** The catalog of positions *)

Lemma convert_positions_fen nm mvs ps :
  convert_opening {| name := nm; jo_moves := mvs |} = Ok ps ->
  map fen ps = map fst mvs.
Proof.
  unfold convert_opening. cbn [jo_moves name].
  revert ps. induction mvs as [| [k ms] mvs IH]; intros ps; cbn.
  - intros [= <-]. reflexivity.
  - destruct (mapM _ ms) as [cms |]; [| discriminate]. cbn.
    destruct (mapM _ mvs) as [rest |]; [| discriminate]. cbn.
    intros [= <-]. cbn. f_equal. apply IH. reflexivity.
Qed.

Lemma convert_json_loop_fen data acc ps :
  convert_json_loop data acc = Ok ps ->
  map fen ps = (map fen acc ++ concat (map opening_keys data))%list.
Proof.
  revert acc. induction data as [| od data IH]; intros acc;
    cbn [convert_json_loop map concat].
  - intros [= <-]. rewrite app_nil_r. reflexivity.
  - unfold opening_keys at 1.
    destruct (od_name od) as [nm |]; [| discriminate].
    destruct (od_moves od) as [mvs |]; [| discriminate].
    cbn [subscript mbind result_bind default].
    destruct (convert_opening {| name := nm; jo_moves := mvs |})
      as [positions |] eqn:E; [| discriminate].
    intros H. rewrite (IH _ H), map_app, (convert_positions_fen _ _ _ E).
    rewrite <- app_assoc. reflexivity.
Qed.

Lemma occurrences_app k l1 l2 :
  occurrences k (l1 ++ l2) = (occurrences k l1 + occurrences k l2)%nat.
Proof. unfold occurrences. rewrite filter_app, length_app. reflexivity. Qed.

Lemma occurrences_NoDup k l :
  NoDup l -> occurrences k l = if decide (k ∈ l) then 1%nat else 0%nat.
Proof.
  unfold occurrences. induction 1 as [| x l Hx Hl IH].
  - reflexivity.
  - rewrite filter_cons. destruct (decide (x = k)) as [-> | Hne].
    + rewrite (decide_True (P := k ∈ k :: l))
        by (apply elem_of_cons; left; reflexivity).
      cbn [length]. rewrite IH, decide_False by exact Hx. reflexivity.
    + rewrite IH. destruct (decide (k ∈ l)) as [Hin | Hin].
      * rewrite decide_True by (apply elem_of_cons; right; exact Hin).
        reflexivity.
      * rewrite decide_False; [reflexivity |].
        rewrite elem_of_cons. intros [-> | ?]; contradiction.
Qed.

(** C7, as stated, fails: an identifier listed under two openings yields two
    Position records with that identifier. *)
Lemma convert_json_file_repeats_shared_identifier :
  let mv := mkMoveData (Some "27") (Some "26") None None in
  let data :=
    [ mkOpeningData (Some "Yagura") (Some [("start", [mv])]);
      mkOpeningData (Some "Aggressive Rook") (Some [("start", [mv])]) ] in
  exists ps,
    convert_json_file data = Ok ps
    /\ map fen ps = ["start"; "start"]
    /\ ~ NoDup (map fen ps).
Proof.
  eexists. split; [vm_compute; reflexivity |].
  split; [reflexivity |].
  cbn. intros H. apply NoDup_cons in H as [Hin _].
  apply Hin. apply elem_of_cons. left. reflexivity.
Qed.

(** C7, amended: the catalog lists the openings' position identifiers in
    input order, one opening after the other and without merging; as the
    identifiers under one opening are distinct, an identifier occurs in the
    catalog once for every opening that lists it. *)
Theorem convert_json_file_identifiers data ps :
  Forall (fun od => NoDup (opening_keys od)) data ->
  convert_json_file data = Ok ps ->
  map fen ps = concat (map opening_keys data)
  /\ forall k,
       occurrences k (map fen ps)
       = length (filter (fun od => k ∈ opening_keys od) data).
Proof.
  intros Hkeys H. apply convert_json_loop_fen in H. cbn in H.
  split; [exact H |]. intros k. rewrite H. clear H ps.
  induction Hkeys as [| od data Hod _ IH]; [reflexivity |].
  cbn [map concat]. rewrite occurrences_app, IH, filter_cons.
  rewrite (occurrences_NoDup _ _ Hod).
  destruct (decide (k ∈ opening_keys od)); reflexivity.
Qed.

Lemma convert_json_file_identifiers_witness :
  let mv := mkMoveData (Some "27") (Some "26") None None in
  let data :=
    [ mkOpeningData (Some "Yagura") (Some [("start", [mv]); ("next", [mv])]);
      mkOpeningData (Some "Aggressive Rook") (Some [("start", [mv])]) ] in
  exists ps,
    Forall (fun od => NoDup (opening_keys od)) data
    /\ convert_json_file data = Ok ps
    /\ map fen ps = ["start"; "next"; "start"]
    /\ occurrences "start" (map fen ps) = 2%nat.
Proof.
  intros mv data.
  assert (Forall (fun od => NoDup (opening_keys od)) data) as Hkeys.
  { repeat constructor; cbn; rewrite ?elem_of_cons, ?elem_of_nil;
      intuition discriminate. }
  destruct (convert_json_file data) as [ps |] eqn:E; [| discriminate].
  exists ps. split; [exact Hkeys |]. split; [reflexivity |].
  destruct (convert_json_file_identifiers data ps Hkeys E) as [Hfen Hocc].
  split; [exact Hfen |]. rewrite Hocc. reflexivity.
Defined.

(** ** The statistics report *)

(** *** The stable descending sort *)

Lemma insert_desc_perm x l : insert_desc x l ≡ₚ x :: l.
Proof.
  induction l as [| y l IH]; cbn; [reflexivity |].
  destruct (snd x <? snd y); [| reflexivity].
  rewrite IH. apply Permutation_swap.
Qed.

Lemma insert_desc_sorted x l :
  StronglySorted count_ge l -> StronglySorted count_ge (insert_desc x l).
Proof.
  induction 1 as [| y l Hl IH Hy]; cbn.
  - repeat constructor.
  - destruct (Z.ltb_spec (snd x) (snd y)) as [Hlt | Hge].
    + constructor; [exact IH |].
      rewrite Forall_forall. intros z Hz.
      rewrite insert_desc_perm in Hz.
      apply elem_of_cons in Hz as [-> | Hz]; [unfold count_ge; lia |].
      rewrite Forall_forall in Hy. apply Hy, Hz.
    + constructor; [constructor; assumption |].
      constructor; [exact Hge |].
      rewrite Forall_forall in *. intros z Hz.
      specialize (Hy z Hz). unfold count_ge in *. lia.
Qed.

Lemma sorted_by_count_desc_perm items :
  sorted_by_count_desc items ≡ₚ items.
Proof.
  induction items as [| x items IH]; cbn; [reflexivity |].
  rewrite insert_desc_perm, IH. reflexivity.
Qed.

Lemma sorted_by_count_desc_sorted items :
  StronglySorted count_ge (sorted_by_count_desc items).
Proof.
  induction items as [| x items IH]; cbn; [constructor |].
  apply insert_desc_sorted, IH.
Qed.

(** *** Counting dicts *)

Lemma counts_get_elem d k x dflt :
  NoDup (map fst d) -> (k, x) ∈ d -> counts_get d k dflt = x.
Proof.
  induction d as [| [k' v] d IH]; cbn; intros Hnd Hin.
  - apply elem_of_nil in Hin as [].
  - apply NoDup_cons in Hnd as [Hk' Hnd].
    apply elem_of_cons in Hin as [[= -> ->] | Hin].
    + rewrite String.eqb_refl. reflexivity.
    + destruct (String.eqb_spec k' k) as [-> | Hne]; [| apply IH; assumption].
      exfalso. apply Hk'. apply list_elem_of_In, in_map_iff.
      exists (k, x). split; [reflexivity | apply list_elem_of_In, Hin].
Qed.

Lemma counts_get_absent d k dflt :
  (forall x, (k, x) ∉ d) -> counts_get d k dflt = dflt.
Proof.
  induction d as [| [k' v] d IH]; cbn; intros Hout; [reflexivity |].
  destruct (String.eqb_spec k' k) as [-> | Hne].
  - exfalso. apply (Hout v), elem_of_cons. left. reflexivity.
  - apply IH. intros x Hin. apply (Hout x), elem_of_cons. right. exact Hin.
Qed.

Lemma counts_set_keys d k v k' :
  k' ∈ map fst (counts_set d k v) <-> k' = k \/ k' ∈ map fst d.
Proof.
  induction d as [| [k0 v0] d IH]; cbn.
  - rewrite list_elem_of_singleton, elem_of_nil. tauto.
  - destruct (String.eqb_spec k0 k) as [-> | Hne]; cbn;
      rewrite !elem_of_cons; [tauto |]. rewrite IH. tauto.
Qed.

Lemma counts_set_NoDup d k v :
  NoDup (map fst d) -> NoDup (map fst (counts_set d k v)).
Proof.
  induction d as [| [k0 v0] d IH]; cbn; intros Hnd.
  - apply NoDup_cons. split; [apply not_elem_of_nil | constructor].
  - apply NoDup_cons in Hnd as [Hk0 Hnd].
    destruct (String.eqb_spec k0 k) as [-> | Hne]; cbn.
    + apply NoDup_cons. split; assumption.
    + apply NoDup_cons. split; [| apply IH, Hnd].
      rewrite counts_set_keys. intros [-> | Hin]; contradiction.
Qed.

Lemma counts_set_elem d k v k' x :
  NoDup (map fst d) ->
  (k', x) ∈ counts_set d k v <->
  (k' = k /\ x = v) \/ (k' <> k /\ (k', x) ∈ d).
Proof.
  induction d as [| [k0 v0] d IH]; cbn; intros Hnd.
  - rewrite list_elem_of_singleton, elem_of_nil.
    split; [intros [= -> ->]; tauto | intros [[-> ->] | [_ []]]; reflexivity].
  - apply NoDup_cons in Hnd as [Hk0 Hnd].
    assert (forall y, (k0, y) ∉ d) as Hfresh.
    { intros y Hin. apply Hk0, list_elem_of_In, in_map_iff.
      exists (k0, y). split; [reflexivity | apply list_elem_of_In, Hin]. }
    destruct (String.eqb_spec k0 k) as [-> | Hne]; rewrite !elem_of_cons.
    + split.
      * intros [[= -> ->] | Hin]; [tauto |].
        right. split; [| right; exact Hin].
        intros ->. exact (Hfresh _ Hin).
      * intros [[-> ->] | [Hne [[= -> ->] | Hin]]];
          [left; reflexivity | contradiction | right; exact Hin].
    + rewrite (IH Hnd). split.
      * intros [[= -> ->] | [[-> ->] | [Hne' Hin]]]; [right | left | right];
          tauto.
      * intros [[-> ->] | [Hne' [[= -> ->] | Hin]]]; tauto.
Qed.

(** *** Tallying moves by a key *)

Section Tally.
Variable key : ConvertedMove -> string.

Lemma moves_with_snoc k ms m :
  moves_with key k (ms ++ [m]) =
  moves_with key k ms + (if decide (key m = k) then 1 else 0).
Proof.
  unfold moves_with. rewrite filter_app, length_app, filter_cons, filter_nil.
  destruct (decide (key m = k)); cbn; lia.
Qed.

Lemma moves_with_nonneg k ms : 0 <= moves_with key k ms.
Proof. unfold moves_with. lia. Qed.

(** The dict holds exactly the keys that occur, each with its count. *)
Lemma tally_spec ms :
  NoDup (map fst (tally key ms))
  /\ forall k x,
       (k, x) ∈ tally key ms <-> x = moves_with key k ms /\ 0 < x.
Proof.
  unfold tally. induction ms as [| m ms [Hnd IH]] using rev_ind.
  - split; [constructor |]. intros k x. cbn.
    rewrite elem_of_nil. unfold moves_with. cbn. lia.
  - rewrite fold_left_app. cbn [fold_left]. unfold tally_step at 1 3.
    set (d := fold_left (tally_step key) ms []) in *.
    split; [apply counts_set_NoDup, Hnd |].
    intros k x. rewrite (counts_set_elem _ _ _ _ _ Hnd), moves_with_snoc.
    pose proof (moves_with_nonneg (key m) ms) as Hnn.
    assert (counts_get d (key m) 0 = moves_with key (key m) ms) as ->.
    { destruct (decide (0 < moves_with key (key m) ms)) as [Hpos | Hzero].
      - apply counts_get_elem; [exact Hnd |]. apply IH. split; [reflexivity | exact Hpos].
      - rewrite counts_get_absent; [lia |].
        intros y Hin. apply IH in Hin as [-> Hy]. contradiction. }
    rewrite IH. destruct (decide (key m = k)) as [<- | Hne].
    + split; [intros [[_ ->] | [Hne _]]; [lia | contradiction] |].
      intros [-> _]. left. split; reflexivity.
    + split.
      * intros [[-> _] | [_ [-> Hpos]]]; [contradiction | lia].
      * intros [-> Hpos]. right. split; [congruence | lia].
Qed.
End Tally.

(** *** The counting loop *)

Lemma count_all_flat positions :
  count_all positions =
  fold_left count_move (all_moves positions) initial_report_state.
Proof.
  unfold count_all, all_moves. generalize initial_report_state.
  induction positions as [| pos positions IH]; intros st; cbn;
    [reflexivity |].
  rewrite fold_left_app. apply IH.
Qed.

Lemma count_move_fold ms st :
  let st' := fold_left count_move ms st in
  opening_counts st' =
    fold_left (tally_step opening_name) ms (opening_counts st)
  /\ piece_type_counts st' =
    fold_left (tally_step piece_type) ms (piece_type_counts st)
  /\ weight_distribution st' =
    fold_left (fun wd m => increment (weight_bucket (weight m)) wd) ms
      (weight_distribution st).
Proof.
  revert st. induction ms as [| m ms IH]; intros st; cbn;
    [repeat split |].
  destruct (IH (count_move st m)) as (-> & -> & ->).
  unfold count_move, weight_bucket; cbn.
  repeat split. destruct (800 <=? weight m), (500 <=? weight m); reflexivity.
Qed.

Lemma histogram_fold ms (wd : gmap string Z) b :
  fold_left (fun wd m => increment (weight_bucket (weight m)) wd) ms wd !! b
  = (fun n => n + Z.of_nat
       (length (filter (fun m => weight_bucket (weight m) = b) ms)))
    <$> wd !! b.
Proof.
  revert wd. induction ms as [| m ms IH]; intros wd; cbn [fold_left].
  - rewrite filter_nil. cbn. destruct (wd !! b); cbn; f_equal; lia.
  - rewrite IH. unfold increment. rewrite lookup_alter, filter_cons.
    destruct (decide (weight_bucket (weight m) = b)) as [<- | Hne];
      destruct (wd !! _); cbn; f_equal; lia.
Qed.

Lemma total_moves_sum positions :
  total_moves positions =
  Z.of_nat (sum_list_with (fun pos => length (moves pos)) positions).
Proof.
  unfold total_moves.
  assert (forall a,
    fold_left Z.add
      (map (fun pos => Z.of_nat (length (moves pos))) positions) a
    = a + Z.of_nat (sum_list_with (fun pos => length (moves pos)) positions))
    as H; [| rewrite H; lia].
  induction positions as [| pos positions IH]; intros a; cbn; [lia |].
  rewrite IH. lia.
Qed.

Lemma weight_bucket_high w : weight_bucket w = "high" <-> 800 <= w.
Proof.
  unfold weight_bucket.
  destruct (Z.leb_spec 800 w), (Z.leb_spec 500 w);
    split; intros; try lia; try discriminate; reflexivity.
Qed.

Lemma weight_bucket_medium w : weight_bucket w = "medium" <-> 500 <= w < 800.
Proof.
  unfold weight_bucket.
  destruct (Z.leb_spec 800 w), (Z.leb_spec 500 w);
    split; intros; try lia; try discriminate; reflexivity.
Qed.

Lemma weight_bucket_low w : weight_bucket w = "low" <-> w < 500.
Proof.
  unfold weight_bucket.
  destruct (Z.leb_spec 800 w), (Z.leb_spec 500 w);
    split; intros; try lia; try discriminate; reflexivity.
Qed.

(** The histogram entry of bucket [b] after the loop, for a bucket the dict
    was created with. *)
Lemma histogram_count positions b :
  b ∈ ["high"; "medium"; "low"] ->
  weight_distribution (count_all positions) !!! b =
  Z.of_nat (length (filter (fun m => weight_bucket (weight m) = b)
                      (all_moves positions))).
Proof.
  intros Hb. apply lookup_total_correct.
  rewrite count_all_flat.
  destruct (count_move_fold (all_moves positions) initial_report_state)
    as (_ & _ & ->).
  rewrite histogram_fold.
  rewrite !elem_of_cons, elem_of_nil in Hb.
  destruct Hb as [-> | [-> | [-> | []]]]; reflexivity.
Qed.

(** The sorted lines of one distribution: the keys that occur, each once,
    with the number of moves that carry it, in descending order of count. *)
Lemma sorted_tally key ms :
  let items := sorted_by_count_desc (tally key ms) in
  StronglySorted count_ge items
  /\ NoDup (map fst items)
  /\ forall k n, (k, n) ∈ items <-> n = moves_with key k ms /\ 0 < n.
Proof.
  cbn zeta. destruct (tally_spec key ms) as [Hnd Hitems].
  split; [apply sorted_by_count_desc_sorted |].
  split.
  - rewrite sorted_by_count_desc_perm. exact Hnd.
  - intros k n. rewrite sorted_by_count_desc_perm. apply Hitems.
Qed.

(** C9: the report prints the number of Position records and the sum of
    the lengths of their move lists; the per-opening and per-piece-type lines hold each key
    that occurs once, with its number of moves, in descending order of
    count; the histogram counts weights of at least 800 as high, from 500 to
    799 as medium and below 500 as low, so weights 900, 600 and 300 give
    one move in each bucket. *)
Theorem generate_migration_report_statistics positions :
  let st := count_all positions in
  let ms := all_moves positions in
  let by_opening := sorted_by_count_desc (opening_counts st) in
  let by_piece := sorted_by_count_desc (piece_type_counts st) in
  let wd := weight_distribution st in
  generate_migration_report positions =
    String.concat newline
      ([ "=== Opening Book Migration Report ===";
         "Total Positions: " +:+ pretty (total_positions positions);
         "Total Moves: " +:+ pretty (total_moves positions);
         EmptyString;
         "Opening Distribution:" ]
       ++ map count_line by_opening
       ++ [ EmptyString; "Piece Type Distribution:" ]
       ++ map count_line by_piece
       ++ [ EmptyString;
            "Weight Distribution:";
            "  High (800+): " +:+ pretty (wd !!! "high") +:+ " moves";
            "  Medium (500-799): " +:+ pretty (wd !!! "medium") +:+ " moves";
            "  Low (<500): " +:+ pretty (wd !!! "low") +:+ " moves" ])%list
  /\ total_positions positions = Z.of_nat (length positions)
  /\ total_moves positions =
       Z.of_nat (sum_list_with (fun pos => length (moves pos)) positions)
  /\ (StronglySorted count_ge by_opening
      /\ NoDup (map fst by_opening)
      /\ forall nm n,
           (nm, n) ∈ by_opening <->
           n = moves_with opening_name nm ms /\ 0 < n)
  /\ (StronglySorted count_ge by_piece
      /\ NoDup (map fst by_piece)
      /\ forall pt n,
           (pt, n) ∈ by_piece <->
           n = moves_with piece_type pt ms /\ 0 < n)
  /\ wd !!! "high" =
       Z.of_nat (length (filter (fun m => 800 <= weight m) ms))
  /\ wd !!! "medium" =
       Z.of_nat (length (filter (fun m => 500 <= weight m < 800) ms))
  /\ wd !!! "low" =
       Z.of_nat (length (filter (fun m => weight m < 500) ms))
  /\ (weight_distribution (count_all three_weights) !!! "high" = 1
      /\ weight_distribution (count_all three_weights) !!! "medium" = 1
      /\ weight_distribution (count_all three_weights) !!! "low" = 1).
Proof.
  cbn zeta.
  assert (opening_counts (count_all positions)
          = tally opening_name (all_moves positions)) as Hoc.
  { rewrite count_all_flat.
    destruct (count_move_fold (all_moves positions) initial_report_state)
      as (-> & _ & _). reflexivity. }
  assert (piece_type_counts (count_all positions)
          = tally piece_type (all_moves positions)) as Hpc.
  { rewrite count_all_flat.
    destruct (count_move_fold (all_moves positions) initial_report_state)
      as (_ & -> & _). reflexivity. }
  split; [reflexivity |].
  split; [reflexivity |].
  split; [apply total_moves_sum |].
  split; [rewrite Hoc; apply sorted_tally |].
  split; [rewrite Hpc; apply sorted_tally |].
  split; [| split; [| split]].
  - rewrite histogram_count by decide_by_compute. do 2 f_equal.
    apply list_filter_iff. intros m. apply weight_bucket_high.
  - rewrite histogram_count by decide_by_compute. do 2 f_equal.
    apply list_filter_iff. intros m. apply weight_bucket_medium.
  - rewrite histogram_count by decide_by_compute. do 2 f_equal.
    apply list_filter_iff. intros m. apply weight_bucket_low.
  - repeat split; vm_compute; reflexivity.
Qed.

(** The report text for the three weights. *)
Example generate_migration_report_three_weights :
  generate_migration_report three_weights =
  String.concat newline
    [ "=== Opening Book Migration Report ===";
      "Total Positions: 1";
      "Total Moves: 3";
      EmptyString;
      "Opening Distribution:";
      "  Test Opening: 3 moves";
      EmptyString;
      "Piece Type Distribution:";
      "  Pawn: 3 moves";
      EmptyString;
      "Weight Distribution:";
      "  High (800+): 1 moves";
      "  Medium (500-799): 1 moves";
      "  Low (<500): 1 moves" ].
Proof. vm_compute. reflexivity. Qed.

(** * Further properties of the converter *)

(** ** Evaluation range *)

Lemma assign_evaluation_bounds move opening :
  10 <= assign_evaluation move opening <= 55.
Proof.
  destruct (move_type_score move opening) as (base & Hbase & Hrange).
  unfold assign_evaluation, dict_get. rewrite Hbase.
  change (default 0 (Some base)) with base. cbv zeta.
  destruct (promote move) eqn:Hp.
  - assert (determine_move_type move opening = "tactical") as Ht.
    { unfold determine_move_type. rewrite Hp.
      destruct (String.eqb (from_pos move) "drop"); reflexivity. }
    rewrite Ht in Hbase. vm_compute in Hbase. injection Hbase as <-.
    destruct (str_in opening ["Aggressive Rook"; "Yagura"]);
      [| destruct (str_in opening ["Kakugawari (Bishop Exchange)"])];
      lia.
  - destruct (str_in opening ["Aggressive Rook"; "Yagura"]);
      [| destruct (str_in opening ["Kakugawari (Bishop Exchange)"])];
      lia.
Qed.

Lemma assign_weight_bounds move opening :
  500 <= assign_weight move opening <= 1000.
Proof.
  rewrite assign_weight_unfold.
  pose proof (base_weight_range opening) as Hb.
  unfold promotion_or_drop_bonus, square_bonus.
  destruct (promote move); repeat case_decide; lia.
Qed.

(** Although no cap is applied, the evaluation of every move lies between
    10 and 55, and both ends are reached: the default score 0 and the
    neutral category are never used. *)
Theorem assign_evaluation_range move opening :
  10 <= assign_evaluation move opening <= 55
  /\ (exists m o, assign_evaluation m o = 10)
  /\ (exists m o, assign_evaluation m o = 55).
Proof.
  split; [apply assign_evaluation_bounds | split].
  - exists (mkJsonMove "27" "26" false EmptyString), "Test Opening".
    vm_compute. reflexivity.
  - exists (mkJsonMove "23" "22" true EmptyString),
      "Kakugawari (Bishop Exchange)".
    vm_compute. reflexivity.
Qed.

(** ** Piece types *)

(** The piece type is always Pawn, Rook, Gold or Bishop, each a piece name
    of [piece_type_mapping]; outside the three named openings it is Pawn. *)
Theorem determine_piece_type_range move fen opening :
  determine_piece_type move fen opening ∈ ["Pawn"; "Rook"; "Gold"; "Bishop"]
  /\ (exists symbol,
        piece_type_mapping !! symbol
        = Some (determine_piece_type move fen opening))
  /\ (opening ∉ ["Aggressive Rook"; "Yagura"; "Kakugawari (Bishop Exchange)"]
      -> determine_piece_type move fen opening = "Pawn").
Proof.
  assert (determine_piece_type move fen opening
            ∈ ["Pawn"; "Rook"; "Gold"; "Bishop"]) as Hin.
  { unfold determine_piece_type.
    repeat match goal with
    | |- context [if ?b then _ else _] => destruct b
    end; decide_by_compute. }
  split; [exact Hin |]. split.
  - rewrite !elem_of_cons, elem_of_nil in Hin.
    destruct Hin as [-> | [-> | [-> | [-> | []]]]];
      [exists "P" | exists "R" | exists "G" | exists "B"];
      vm_compute; reflexivity.
  - intros Hout. rewrite !not_elem_of_cons in Hout.
    destruct Hout as (H1 & H2 & H3 & _).
    unfold determine_piece_type.
    destruct (String.eqb_spec opening "Aggressive Rook"); [contradiction |].
    destruct (String.eqb_spec opening "Yagura"); [contradiction |].
    destruct (String.eqb_spec opening "Kakugawari (Bishop Exchange)");
      [contradiction | reflexivity].
Qed.

Lemma determine_piece_type_range_witness :
  determine_piece_type (mkJsonMove "27" "26" false EmptyString) "fen"
    "Test Opening" = "Pawn".
Proof.
  destruct (determine_piece_type_range
              (mkJsonMove "27" "26" false EmptyString) "fen" "Test Opening")
    as (_ & _ & H).
  apply H. decide_by_compute.
Defined.

(** On a two-character string the substring test is equality. *)
Lemma str_contains_two a b c0 c1 :
  str_contains (String a (String b EmptyString))
               (String c0 (String c1 EmptyString)) = true
  <-> String c0 (String c1 EmptyString) = String a (String b EmptyString).
Proof.
  unfold str_contains. cbn.
  destruct (ascii_dec a c0) as [<- | H0]; cbn.
  - destruct (ascii_dec b c1) as [<- | H1]; cbn; [tauto |].
    destruct (ascii_dec a c1); cbn;
      (split; [discriminate | intros [= E]; congruence]).
  - destruct (ascii_dec a c1); cbn;
      (split; [discriminate | intros [= E1 E2]; congruence]).
Qed.

Lemma str_contains_two_bool a b (s : string) :
  String.length s = 2%nat ->
  str_contains (String a (String b EmptyString)) s
  = bool_decide (s = String a (String b EmptyString)).
Proof.
  intros Hlen. destruct (length_two _ Hlen) as (c0 & c1 & ->).
  destruct (str_contains _ _) eqn:E.
  - apply str_contains_two in E. rewrite E.
    symmetry. apply bool_decide_eq_true. reflexivity.
  - symmetry. apply bool_decide_eq_false. intros Heq.
    apply str_contains_two in Heq. congruence.
Qed.

(** The sentinel of a drop holds none of the two-digit patterns. *)
Lemma str_contains_drop a b :
  digit_value a <> None ->
  str_contains (String a (String b EmptyString)) "drop" = false.
Proof.
  intros Ha. unfold str_contains. cbn.
  assert (forall c, digit_value c = None -> a <> c) as Hne
    by (intros c Hc ->; contradiction).
  destruct (ascii_dec a "d") as [E | _];
    [exfalso; apply (Hne "d"%char); [reflexivity | exact E] |].
  destruct (ascii_dec a "r") as [E | _];
    [exfalso; apply (Hne "r"%char); [reflexivity | exact E] |].
  destruct (ascii_dec a "o") as [E | _];
    [exfalso; apply (Hne "o"%char); [reflexivity | exact E] |].
  destruct (ascii_dec a "p") as [E | _];
    [exfalso; apply (Hne "p"%char); [reflexivity | exact E] |].
  reflexivity.
Qed.

(** What a successful [convert_move] returns, field by field. *)
Lemma convert_move_Ok_inv move fen opening cm :
  convert_move move fen opening = Ok cm ->
  exists tr tc n,
    convert_coordinate (to_pos move) = Ok (tr, tc)
    /\ generate_move_notation move opening = Ok n
    /\ ((from_pos move = "drop"
         /\ cm = mkConvertedMove 0 0 tr tc
                   (determine_piece_type move fen opening) true
                   (promote move) (assign_weight move opening)
                   (assign_evaluation move opening) opening n)
        \/ (from_pos move <> "drop"
            /\ exists fr fc,
                 convert_coordinate (from_pos move) = Ok (fr, fc)
                 /\ cm = mkConvertedMove fr fc tr tc
                           (determine_piece_type move fen opening) false
                           (promote move) (assign_weight move opening)
                           (assign_evaluation move opening) opening n)).
Proof.
  intros H.
  destruct (decide (from_pos move = "drop")) as [Hd | Hd].
  - rewrite (convert_move_drop _ _ _ Hd) in H.
    destruct (convert_coordinate (to_pos move)) as [[tr tc] |];
      [| discriminate].
    cbn [mbind result_bind] in H.
    destruct (generate_move_notation move opening) as [n |];
      [| discriminate].
    cbn [mbind result_bind] in H. injection H as <-.
    exists tr, tc, n. repeat split. left. split; [exact Hd | reflexivity].
  - rewrite (convert_move_not_drop _ _ _ Hd) in H.
    destruct (convert_coordinate (from_pos move)) as [[fr fc] |];
      [| discriminate].
    cbn [mbind result_bind] in H.
    destruct (convert_coordinate (to_pos move)) as [[tr tc] |];
      [| discriminate].
    cbn [mbind result_bind] in H.
    destruct (generate_move_notation move opening) as [n |];
      [| discriminate].
    cbn [mbind result_bind] in H. injection H as <-.
    exists tr, tc, n. repeat split. right. split; [exact Hd |].
    exists fr, fc. split; reflexivity.
Qed.

Lemma convert_coordinate_Ok_length coord rc :
  convert_coordinate coord = Ok rc -> String.length coord = 2%nat.
Proof.
  intros H. destruct rc as [r c].
  apply convert_coordinate_Ok_inv in H as (_ & _ & c0 & c1 & -> & _).
  reflexivity.
Qed.

Lemma determine_piece_type_table move fen opening :
  from_pos move = "drop" \/ String.length (from_pos move) = 2%nat ->
  String.length (to_pos move) = 2%nat ->
  determine_piece_type move fen opening
  = piece_type_table opening (from_pos move) (to_pos move).
Proof.
  intros Hfrom Hto. unfold determine_piece_type, piece_type_table.
  rewrite !(str_contains_two_bool _ _ (to_pos move)) by exact Hto.
  assert (forall a b, digit_value a <> None ->
            str_contains (String a (String b EmptyString)) (from_pos move)
            = bool_decide (from_pos move = String a (String b EmptyString)))
    as Hf.
  { intros a b Ha. destruct Hfrom as [Hd | Hlen].
    - rewrite Hd, str_contains_drop by exact Ha.
      symmetry. apply bool_decide_eq_false. intros Heq.
      discriminate Heq.
    - apply str_contains_two_bool, Hlen. }
  rewrite !Hf by (vm_compute; discriminate).
  destruct (String.eqb_spec opening "Aggressive Rook") as [-> | H1].
  { rewrite decide_True by reflexivity.
    repeat case_bool_decide; case_decide; try reflexivity; exfalso;
      rewrite ?elem_of_cons, ?not_elem_of_cons, ?elem_of_nil in *;
      cbn in *; intuition congruence. }
  rewrite decide_False by exact H1.
  destruct (String.eqb_spec opening "Yagura") as [-> | H2].
  { rewrite decide_True by reflexivity.
    repeat case_bool_decide; repeat case_decide; try reflexivity; exfalso;
      rewrite ?elem_of_cons, ?not_elem_of_cons, ?elem_of_nil in *;
      cbn in *; intuition congruence. }
  rewrite decide_False by exact H2.
  destruct (String.eqb_spec opening "Kakugawari (Bishop Exchange)")
    as [-> | H3].
  { rewrite decide_True by reflexivity.
    repeat case_bool_decide; repeat case_decide; try reflexivity; exfalso;
      cbn in *; intuition congruence. }
  rewrite decide_False by exact H3. reflexivity.
Qed.

(** On every move [convert_move] accepts, the piece heuristic is a table on
    whole squares: its substring tests are equalities there, and a drop
    matches no source-square pattern. *)
Theorem convert_move_piece_type_table move fen opening cm :
  convert_move move fen opening = Ok cm ->
  piece_type cm = piece_type_table opening (from_pos move) (to_pos move).
Proof.
  intros H.
  destruct (convert_move_Ok_inv _ _ _ _ H)
    as (tr & tc & n & Hto & _ & [[Hd ->] | [Hd (fr & fc & Hfrom & ->)]]);
    cbn [piece_type]; apply determine_piece_type_table;
    eauto using convert_coordinate_Ok_length.
Qed.

Lemma convert_move_piece_type_table_witness :
  exists cm,
    convert_move (mkJsonMove "69" "78" false EmptyString) "fen" "Yagura"
      = Ok cm
    /\ piece_type cm = "Gold".
Proof.
  destruct (convert_move (mkJsonMove "69" "78" false EmptyString) "fen"
              "Yagura") as [cm |] eqn:E; [| discriminate].
  exists cm. split; [reflexivity |].
  rewrite (convert_move_piece_type_table _ _ _ _ E). reflexivity.
Defined.

(** ** Move notation *)

Lemma pretty_digit col :
  0 <= col <= 8 ->
  pretty (col + 1) = String (ascii_of_N (Z.to_N (49 + col))) EmptyString.
Proof.
  intros H.
  assert (col = 0 \/ col = 1 \/ col = 2 \/ col = 3 \/ col = 4 \/ col = 5
          \/ col = 6 \/ col = 7 \/ col = 8) as Hc by lia.
  repeat destruct Hc as [-> | Hc]; try subst col; vm_compute; reflexivity.
Qed.

(** The notation of a square [convert_coordinate] accepts is built from the
    coordinates it returns. *)
Lemma usi_coord_of_convert coord row col :
  convert_coordinate coord = Ok (row, col) ->
  usi_coord coord = Ok (square_notation row col).
Proof.
  intros H. apply convert_coordinate_Ok_inv in H.
  destruct H as (Hr & Hc & c0 & c1 & -> & H0 & H1).
  unfold usi_coord, py_int.
  cbn [str_index String.get mbind result_bind]. rewrite H0.
  cbn [mbind result_bind]. rewrite H1. cbn [mbind result_bind].
  unfold chr. change (ord "a") with 97.
  replace (97 + (row + 1) - 1) with (97 + row) by lia.
  destruct (Z.leb_spec 0 (97 + row)); [| lia].
  destruct (Z.ltb_spec (97 + row) 256); [| lia].
  cbn [andb mbind result_bind]. rewrite (pretty_digit _ Hc). reflexivity.
Qed.

(** The notation stored in a converted move agrees with its coordinates:
    origin and destination squares, then [+] for a promotion; for a drop,
    the piece letter, [*] and the destination square. *)
Theorem convert_move_notation move fen opening cm :
  convert_move move fen opening = Ok cm ->
  move_notation cm =
    if is_drop cm then
      drop_piece_letter move +:+ "*"
      +:+ square_notation (to_row cm) (to_col cm)
    else
      square_notation (from_row cm) (from_col cm)
      +:+ square_notation (to_row cm) (to_col cm)
      +:+ (if is_promotion cm then "+" else EmptyString).
Proof.
  intros H.
  destruct (convert_move_Ok_inv _ _ _ _ H)
    as (tr & tc & n & Hto & Hn & [[Hd ->] | [Hd (fr & fc & Hfrom & ->)]]);
    cbn [move_notation is_drop is_promotion to_row to_col from_row from_col];
    unfold generate_move_notation in Hn.
  - rewrite Hd in Hn. cbn [String.eqb Ascii.eqb Bool.eqb] in Hn.
    rewrite (usi_coord_of_convert _ _ _ Hto) in Hn.
    cbn [mbind result_bind] in Hn. injection Hn as <-. reflexivity.
  - destruct (String.eqb_spec (from_pos move) "drop"); [contradiction |].
    rewrite (usi_coord_of_convert _ _ _ Hfrom),
      (usi_coord_of_convert _ _ _ Hto) in Hn.
    cbn [mbind result_bind] in Hn. injection Hn as <-.
    destruct (promote move); reflexivity.
Qed.

Lemma convert_move_notation_witness :
  exists cm,
    convert_move (mkJsonMove "23" "22" true EmptyString) "fen" "Yagura"
      = Ok cm
    /\ move_notation cm = "2c2b+".
Proof.
  destruct (convert_move (mkJsonMove "23" "22" true EmptyString) "fen"
              "Yagura") as [cm |] eqn:E; [| discriminate].
  exists cm. split; [reflexivity |].
  rewrite (convert_move_notation _ _ _ _ E).
  injection E as <-. reflexivity.
Defined.

(** ** Acceptance and failure of convert_move *)

Lemma convert_coordinate_Raise coord e :
  convert_coordinate coord = Raise e -> is_ValueError e.
Proof.
  destruct (decide (String.length coord = 2%nat)) as [Hlen | Hlen];
    [| rewrite (convert_coordinate_bad_length _ Hlen);
       intros [= <-]; exact I].
  destruct (length_two _ Hlen) as (c0 & c1 & ->).
  rewrite convert_coordinate_two.
  destruct (digit_value c0), (digit_value c1);
    try (intros [= <-]; exact I).
  case_decide; [discriminate | intros [= <-]; exact I].
Qed.

Lemma generate_move_notation_of_convert move opening tr tc :
  from_pos move = "drop"
  \/ (exists fr fc, convert_coordinate (from_pos move) = Ok (fr, fc)) ->
  convert_coordinate (to_pos move) = Ok (tr, tc) ->
  exists n, generate_move_notation move opening = Ok n.
Proof.
  intros Hfrom Hto. unfold generate_move_notation.
  rewrite (usi_coord_of_convert _ _ _ Hto).
  destruct (String.eqb_spec (from_pos move) "drop") as [Hd | Hd].
  - cbn. eauto.
  - destruct Hfrom as [Hd' | (fr & fc & Hfr)]; [contradiction |].
    rewrite (usi_coord_of_convert _ _ _ Hfr). cbn. eauto.
Qed.

(** [convert_move] accepts a move exactly when its destination is a valid
    square and its origin is the drop sentinel or a valid square; every
    rejection is a [ValueError], never an [IndexError] of the notation
    code. *)
Theorem convert_move_accepts move fen opening :
  ((exists cm, convert_move move fen opening = Ok cm) <->
   (from_pos move = "drop"
    \/ exists rc, convert_coordinate (from_pos move) = Ok rc)
   /\ exists rc, convert_coordinate (to_pos move) = Ok rc)
  /\ forall e, convert_move move fen opening = Raise e -> is_ValueError e.
Proof.
  split; [split |].
  - intros [cm H].
    destruct (convert_move_Ok_inv _ _ _ _ H)
      as (tr & tc & n & Hto & _ & [[Hd _] | [Hd (fr & fc & Hfrom & _)]]);
      eauto.
  - intros [Hfrom [[tr tc] Hto]].
    destruct (generate_move_notation_of_convert move opening tr tc)
      as [n Hn]; [| exact Hto |].
    { destruct Hfrom as [Hd | [[fr fc] Hfr]]; eauto. }
    destruct (decide (from_pos move = "drop")) as [Hd | Hd].
    + rewrite (convert_move_drop _ _ _ Hd), Hto, Hn. cbn. eauto.
    + destruct Hfrom as [Hd' | [[fr fc] Hfr]]; [contradiction |].
      rewrite (convert_move_not_drop _ _ _ Hd), Hfr, Hto, Hn. cbn. eauto.
  - intros e.
    destruct (decide (from_pos move = "drop")) as [Hd | Hd].
    + rewrite (convert_move_drop _ _ _ Hd).
      destruct (convert_coordinate (to_pos move)) as [[tr tc] | e'] eqn:Hto;
        [| intros [= <-]; exact (convert_coordinate_Raise _ _ Hto)].
      destruct (generate_move_notation_of_convert move opening tr tc)
        as [n ->]; [left; exact Hd | exact Hto |].
      cbn. discriminate.
    + rewrite (convert_move_not_drop _ _ _ Hd).
      destruct (convert_coordinate (from_pos move)) as [[fr fc] | e']
        eqn:Hfr; [| intros [= <-]; exact (convert_coordinate_Raise _ _ Hfr)].
      destruct (convert_coordinate (to_pos move)) as [[tr tc] | e'] eqn:Hto;
        [| intros [= <-]; exact (convert_coordinate_Raise _ _ Hto)].
      destruct (generate_move_notation_of_convert move opening tr tc)
        as [n ->]; [right; eauto | exact Hto |].
      cbn. discriminate.
Qed.

Lemma convert_move_accepts_witness :
  is_ValueError (ValueError "Invalid coordinate format: ").
Proof.
  destruct (convert_move_accepts (mkJsonMove "27" EmptyString false
              EmptyString) "fen" "Yagura") as [_ H].
  apply H. vm_compute. reflexivity.
Defined.

(** Every record [convert_move] returns has its coordinates within 0..8,
    its weight within 500..1000 and its evaluation within 10..55; it copies
    the promotion flag and the opening name, and sets [is_drop] exactly for
    the drop sentinel. *)
Theorem convert_move_record_invariants move fen opening cm :
  convert_move move fen opening = Ok cm ->
  (0 <= from_row cm <= 8 /\ 0 <= from_col cm <= 8)
  /\ (0 <= to_row cm <= 8 /\ 0 <= to_col cm <= 8)
  /\ 500 <= weight cm <= 1000
  /\ 10 <= evaluation cm <= 55
  /\ is_promotion cm = promote move
  /\ opening_name cm = opening
  /\ is_drop cm = bool_decide (from_pos move = "drop").
Proof.
  intros H.
  pose proof (assign_weight_bounds move opening) as Hw.
  pose proof (assign_evaluation_bounds move opening) as He.
  destruct (convert_move_Ok_inv _ _ _ _ H)
    as (tr & tc & n & Hto & _ & [[Hd ->] | [Hd (fr & fc & Hfrom & ->)]]);
    cbn;
    apply convert_coordinate_Ok_inv in Hto as (Htr & Htc & _).
  - rewrite bool_decide_eq_true_2 by exact Hd.
    repeat split; try lia.
  - apply convert_coordinate_Ok_inv in Hfrom as (Hfr & Hfc & _).
    rewrite bool_decide_eq_false_2 by exact Hd.
    repeat split; try lia.
Qed.

Lemma convert_move_record_invariants_witness :
  exists cm,
    convert_move (mkJsonMove "27" "26" true EmptyString) "fen"
      "Aggressive Rook" = Ok cm
    /\ 500 <= weight cm <= 1000 /\ 10 <= evaluation cm <= 55.
Proof.
  destruct (convert_move (mkJsonMove "27" "26" true EmptyString) "fen"
              "Aggressive Rook") as [cm |] eqn:E; [| discriminate].
  exists cm. split; [reflexivity |].
  destruct (convert_move_record_invariants _ _ _ _ E)
    as (_ & _ & Hw & He & _).
  split; assumption.
Defined.

(** The piece-type hint of the input is read only for the notation of a
    drop: two moves that differ in nothing else convert to records that
    agree in every other field, and to the same record when not a drop. *)
Theorem convert_move_ignores_piece_hint from to p hint1 hint2 fen opening cm1 :
  convert_move (mkJsonMove from to p hint1) fen opening = Ok cm1 ->
  exists cm2,
    convert_move (mkJsonMove from to p hint2) fen opening = Ok cm2
    /\ (from_row cm2, from_col cm2, to_row cm2, to_col cm2)
       = (from_row cm1, from_col cm1, to_row cm1, to_col cm1)
    /\ piece_type cm2 = piece_type cm1
    /\ (is_drop cm2, is_promotion cm2) = (is_drop cm1, is_promotion cm1)
    /\ (weight cm2, evaluation cm2) = (weight cm1, evaluation cm1)
    /\ opening_name cm2 = opening_name cm1
    /\ (from <> "drop" -> cm2 = cm1).
Proof.
  intros H.
  destruct (convert_move_Ok_inv _ _ _ _ H)
    as (tr & tc & n & Hto & Hn & [[Hd ->] | [Hd (fr & fc & Hfrom & ->)]]);
    cbn [from_pos to_pos promote] in *.
  - destruct (generate_move_notation_of_convert
                (mkJsonMove from to p hint2) opening tr tc) as [n2 Hn2];
      [left; exact Hd | exact Hto |].
    eexists. split.
    + rewrite (convert_move_drop (mkJsonMove from to p hint2) fen opening Hd).
      cbn [to_pos]. rewrite Hto, Hn2. cbn. reflexivity.
    + cbn. repeat split. intros Hne. contradiction.
  - eexists. split.
    + rewrite (convert_move_not_drop (mkJsonMove from to p hint2) fen
                 opening Hd).
      cbn [from_pos to_pos]. rewrite Hfrom, Hto.
      assert (generate_move_notation (mkJsonMove from to p hint2) opening
              = Ok n) as ->.
      { rewrite <- Hn. unfold generate_move_notation. cbn [from_pos].
        destruct (String.eqb_spec from "drop"); [contradiction |].
        reflexivity. }
      cbn. reflexivity.
    + cbn. repeat split.
Qed.

Lemma convert_move_ignores_piece_hint_witness :
  exists cm2,
    convert_move (mkJsonMove "drop" "55" false "R") "fen" "Yagura" = Ok cm2
    /\ piece_type cm2 = "Pawn" /\ move_notation cm2 = "R*5e".
Proof.
  assert (convert_move (mkJsonMove "drop" "55" false "P") "fen" "Yagura"
          = Ok (mkConvertedMove 0 0 4 4 "Pawn" true false 850 35 "Yagura"
                  "P*5e")) as H by (vm_compute; reflexivity).
  destruct (convert_move_ignores_piece_hint _ _ _ _ "R" _ _ _ H)
    as (cm2 & H2 & _ & Hpt & _).
  exists cm2. split; [exact H2 |]. split; [exact Hpt |].
  vm_compute in H2. injection H2 as <-. reflexivity.
Defined.

(** ** generate_move_notation on its own *)

Lemma digit_value_range c d : digit_value c = Some d -> 0 <= d <= 9.
Proof.
  unfold digit_value.
  destruct (Z.leb_spec 48 (Z.of_N (N_of_ascii c)));
    destruct (Z.leb_spec (Z.of_N (N_of_ascii c)) 57); cbn;
    intros [= <-]; lia.
Qed.

Lemma usi_coord_cases s :
  usi_coord s =
  match s with
  | EmptyString => Raise (IndexError "string index out of range")
  | String c0 rest =>
      match digit_value c0 with
      | None => Raise (ValueError "invalid literal for int() with base 10")
      | Some d0 =>
          match rest with
          | EmptyString => Raise (IndexError "string index out of range")
          | String c1 _ =>
              match digit_value c1 with
              | None =>
                  Raise (ValueError "invalid literal for int() with base 10")
              | Some d1 =>
                  Ok (pretty d0
                      +:+ String (ascii_of_N (Z.to_N (96 + d1))) EmptyString)
              end
          end
      end
  end.
Proof.
  unfold usi_coord, py_int. destruct s as [| c0 rest]; [reflexivity |].
  cbn [str_index String.get mbind result_bind].
  destruct (digit_value c0) as [d0 |]; [| reflexivity].
  cbn [mbind result_bind].
  destruct rest as [| c1 rest]; [reflexivity |].
  cbn [str_index String.get mbind result_bind].
  destruct (digit_value c1) as [d1 |] eqn:E1; [| reflexivity].
  cbn [mbind result_bind].
  apply digit_value_range in E1.
  unfold chr. change (ord "a") with 97.
  replace (97 + d1 - 1) with (96 + d1) by lia.
  destruct (Z.leb_spec 0 (96 + d1)); [| lia].
  destruct (Z.ltb_spec (96 + d1) 256); [| lia].
  reflexivity.
Qed.

Lemma usi_coord_Ok s :
  (exists n, usi_coord s = Ok n) <-> starts_with_two_digits s = true.
Proof.
  rewrite usi_coord_cases. unfold starts_with_two_digits.
  destruct s as [| c0 [| c1 rest]].
  - split; [intros [n H]; discriminate | discriminate].
  - destruct (digit_value c0);
      (split; [intros [n H]; discriminate | discriminate]).
  - destruct (digit_value c0), (digit_value c1); cbn;
      split; eauto; try discriminate; intros [n H]; discriminate.
Qed.

Lemma usi_coord_Raise s e :
  usi_coord s = Raise e -> is_IndexError_or_ValueError e.
Proof.
  rewrite usi_coord_cases.
  destruct s as [| c0 [| c1 rest]]; [intros [= <-]; exact I | |];
    destruct (digit_value c0); try (intros [= <-]; exact I).
  destruct (digit_value c1); [discriminate | intros [= <-]; exact I].
Qed.

(** Called on its own, [generate_move_notation] validates less than
    [convert_coordinate]: it succeeds exactly when each token it reads
    begins with two digits, whatever follows them; it fails only with
    [IndexError] or [ValueError], and with [IndexError] on a drop whose
    destination is empty. *)
Theorem generate_move_notation_succeeds move opening :
  ((exists n, generate_move_notation move opening = Ok n) <->
   (from_pos move = "drop" \/ starts_with_two_digits (from_pos move) = true)
   /\ starts_with_two_digits (to_pos move) = true)
  /\ (forall e, generate_move_notation move opening = Raise e ->
        is_IndexError_or_ValueError e)
  /\ (from_pos move = "drop" -> to_pos move = EmptyString ->
      generate_move_notation move opening
      = Raise (IndexError "string index out of range")).
Proof.
  unfold generate_move_notation.
  destruct (String.eqb_spec (from_pos move) "drop") as [Hd | Hd].
  - split; [| split].
    + rewrite <- (usi_coord_Ok (to_pos move)). split.
      * intros [n H].
        destruct (usi_coord (to_pos move)) as [t |]; [| discriminate].
        split; [left; exact Hd | exists t; reflexivity].
      * intros [_ [t ->]]. cbn. eauto.
    + intros e.
      destruct (usi_coord (to_pos move)) as [t | e'] eqn:E; cbn;
        [discriminate | intros [= <-]; exact (usi_coord_Raise _ _ E)].
    + intros _ ->. reflexivity.
  - split; [| split].
    + rewrite <- (usi_coord_Ok (from_pos move)),
        <- (usi_coord_Ok (to_pos move)). split.
      * intros [n H].
        destruct (usi_coord (from_pos move)) as [f |]; [| discriminate].
        destruct (usi_coord (to_pos move)) as [t |]; [| discriminate].
        split; [right; exists f; reflexivity | exists t; reflexivity].
      * intros [[Hd' | [f ->]] [t ->]]; [contradiction |]. cbn. eauto.
    + intros e.
      destruct (usi_coord (from_pos move)) as [f | e'] eqn:Ef; cbn;
        [| intros [= <-]; exact (usi_coord_Raise _ _ Ef)].
      destruct (usi_coord (to_pos move)) as [t | e'] eqn:Et; cbn;
        [discriminate | intros [= <-]; exact (usi_coord_Raise _ _ Et)].
    + intros Hd'. contradiction.
Qed.

Lemma generate_move_notation_succeeds_witness :
  generate_move_notation (mkJsonMove "drop" EmptyString false "P") "Yagura"
  = Raise (IndexError "string index out of range").
Proof.
  destruct (generate_move_notation_succeeds
              (mkJsonMove "drop" EmptyString false "P") "Yagura")
    as (_ & _ & H).
  apply H; reflexivity.
Defined.

(** ** Conversion of openings and files *)

Lemma mapM_Ok {A B} (f : A -> result B) l ys :
  mapM f l = Ok ys <-> Forall2 (fun x y => f x = Ok y) l ys.
Proof.
  revert ys. induction l as [| x l IH]; intros ys; cbn.
  - split; [intros [= <-]; constructor | intros H; inversion H; reflexivity].
  - split.
    + destruct (f x) as [y |] eqn:Ex; [| discriminate]. cbn.
      destruct (mapM f l) as [k |]; [| discriminate]. cbn.
      intros [= <-]. constructor; [exact Ex | apply IH; reflexivity].
    + intros H. inversion H as [| ? y ? k Hy Hk]; subst.
      rewrite Hy. cbn. apply IH in Hk. rewrite Hk. reflexivity.
Qed.

(** [convert_opening] returns a list exactly when every move of every
    position converts; the list then has one Position per input position,
    in input order, with the same identifier and the converted moves in
    input order. One rejected move rejects the whole opening. *)
Theorem convert_opening_Ok opening ps :
  convert_opening opening = Ok ps <->
  Forall2
    (fun entry pos =>
       fen pos = fst entry
       /\ Forall2
            (fun md cm =>
               convert_move (parse_move md) (fst entry) (name opening)
               = Ok cm)
            (snd entry) (moves pos))
    (jo_moves opening) ps.
Proof.
  unfold convert_opening. rewrite mapM_Ok.
  split; intros H; (eapply Forall2_impl; [exact H |]);
    intros [k mds] [f ms]; cbn.
  - destruct (mapM _ mds) as [cms |] eqn:E; [| discriminate]. cbn.
    intros [= <- <-]. apply mapM_Ok in E. split; [reflexivity | exact E].
  - intros [-> Hms]. apply mapM_Ok in Hms. rewrite Hms. reflexivity.
Qed.

Lemma convert_opening_Ok_witness :
  convert_opening
    {| name := "Yagura";
       jo_moves := [("start", [mkMoveData (Some "77") (Some "76") None None])]
    |}
  = Ok [ {| fen := "start";
            moves := [mkConvertedMove 6 6 5 6 "Pawn" false false 850 20
                        "Yagura" "7g7f"] |} ].
Proof.
  apply convert_opening_Ok. cbn [jo_moves name].
  repeat constructor.
Defined.

Lemma convert_json_loop_acc data acc :
  convert_json_loop data acc =
  ps ← convert_json_loop data []; Ok (acc ++ ps)%list.
Proof.
  revert acc. induction data as [| od data IH]; intros acc;
    cbn [convert_json_loop].
  - cbn. rewrite app_nil_r. reflexivity.
  - destruct (od_name od) as [nm |]; [| reflexivity].
    destruct (od_moves od) as [mvs |]; [| reflexivity].
    cbn [subscript mbind result_bind].
    destruct (convert_opening {| name := nm; jo_moves := mvs |})
      as [positions |]; [| reflexivity].
    cbn [mbind result_bind app].
    rewrite (IH (acc ++ positions)%list), (IH positions).
    destruct (convert_json_loop data []) as [ps |]; [| reflexivity].
    cbn. rewrite app_assoc. reflexivity.
Qed.

Lemma convert_json_loop_app d1 d2 acc :
  convert_json_loop (d1 ++ d2) acc =
  ps1 ← convert_json_loop d1 acc; convert_json_loop d2 ps1.
Proof.
  revert acc. induction d1 as [| od d1 IH]; intros acc;
    cbn [convert_json_loop app]; [reflexivity |].
  destruct (od_name od) as [nm |]; [| reflexivity].
  destruct (od_moves od) as [mvs |]; [| reflexivity].
  cbn [subscript mbind result_bind].
  destruct (convert_opening {| name := nm; jo_moves := mvs |})
    as [positions |]; [| reflexivity].
  cbn [mbind result_bind]. apply IH.
Qed.

(** Converting the concatenation of two inputs gives the concatenation of
    their catalogs; when either fails the whole conversion fails, with the
    error of the first input if that one fails. *)
Theorem convert_json_file_app d1 d2 :
  convert_json_file (d1 ++ d2) =
  match convert_json_file d1 with
  | Ok ps1 =>
      match convert_json_file d2 with
      | Ok ps2 => Ok (ps1 ++ ps2)%list
      | Raise e => Raise e
      end
  | Raise e => Raise e
  end.
Proof.
  unfold convert_json_file. rewrite convert_json_loop_app.
  destruct (convert_json_loop d1 []) as [ps1 |]; [| reflexivity].
  cbn [mbind result_bind]. rewrite convert_json_loop_acc.
  destruct (convert_json_loop d2 []); reflexivity.
Qed.

(** An opening record without a name, or with a name but without moves,
    aborts the conversion with the [KeyError] of that key, whatever follows
    it, once the records before it have converted. *)
Theorem convert_json_file_missing_key d1 od d2 ps1 :
  convert_json_file d1 = Ok ps1 ->
  (od_name od = None ->
   convert_json_file (d1 ++ od :: d2) = Raise (KeyError "name"))
  /\ (od_name od <> None -> od_moves od = None ->
      convert_json_file (d1 ++ od :: d2) = Raise (KeyError "moves")).
Proof.
  unfold convert_json_file. intros H1.
  rewrite convert_json_loop_app, H1. cbn [mbind result_bind convert_json_loop].
  split.
  - intros ->. reflexivity.
  - intros Hn ->. destruct (od_name od); [reflexivity | contradiction].
Qed.

Lemma convert_json_file_missing_key_witness :
  let mv := mkMoveData (Some "27") (Some "26") None None in
  let d1 := [mkOpeningData (Some "Yagura") (Some [("start", [mv])])] in
  convert_json_file (d1 ++ mkOpeningData None None :: d1)
    = Raise (KeyError "name")
  /\ convert_json_file (d1 ++ mkOpeningData (Some "Yagura") None :: d1)
    = Raise (KeyError "moves").
Proof.
  intros mv d1.
  destruct (convert_json_file d1) as [ps1 |] eqn:E; [| discriminate].
  split.
  - destruct (convert_json_file_missing_key d1 (mkOpeningData None None)
                d1 ps1 E) as [H _].
    apply H. reflexivity.
  - destruct (convert_json_file_missing_key d1
                (mkOpeningData (Some "Yagura") None) d1 ps1 E) as [_ H].
    apply H; [discriminate | reflexivity].
Defined.

Lemma mapM_Ok_length {A B} (f : A -> result B) l ys :
  mapM f l = Ok ys -> length ys = length l.
Proof.
  intros H. apply mapM_Ok in H.
  induction H; cbn; [reflexivity | f_equal; assumption].
Qed.

Lemma convert_positions_lengths nm mvs ps :
  convert_opening {| name := nm; jo_moves := mvs |} = Ok ps ->
  map (fun pos => length (moves pos)) ps
  = map (fun e => length (snd e)) mvs.
Proof.
  unfold convert_opening. cbn [jo_moves name].
  revert ps. induction mvs as [| [k ms] mvs IH]; intros ps; cbn.
  - intros [= <-]. reflexivity.
  - destruct (mapM _ ms) as [cms |] eqn:E; [| discriminate]. cbn.
    destruct (mapM _ mvs) as [rest |]; [| discriminate]. cbn.
    intros [= <-]. cbn. rewrite (mapM_Ok_length _ _ _ E).
    f_equal. apply IH. reflexivity.
Qed.

Lemma convert_json_loop_lengths data acc ps :
  convert_json_loop data acc = Ok ps ->
  map (fun pos => length (moves pos)) ps
  = (map (fun pos => length (moves pos)) acc
     ++ concat (map (fun od => map (fun e => length (snd e))
                                   (opening_entries od)) data))%list.
Proof.
  revert acc. induction data as [| od data IH]; intros acc;
    cbn [convert_json_loop map concat].
  - intros [= <-]. rewrite app_nil_r. reflexivity.
  - unfold opening_entries at 1.
    destruct (od_name od) as [nm |]; [| discriminate].
    destruct (od_moves od) as [mvs |]; [| discriminate].
    cbn [subscript mbind result_bind default].
    destruct (convert_opening {| name := nm; jo_moves := mvs |})
      as [positions |] eqn:E; [| discriminate].
    intros H.
    rewrite (IH _ H), map_app, (convert_positions_lengths _ _ _ E).
    rewrite <- app_assoc. reflexivity.
Qed.

Lemma sum_list_with_map {A} (f : A -> nat) l :
  sum_list_with f l = sum_list (map f l).
Proof. induction l; cbn; [reflexivity | f_equal; assumption]. Qed.

Lemma sum_list_concat_map {A} (g : A -> list nat) l :
  sum_list (concat (map g l)) = sum_list_with (fun x => sum_list (g x)) l.
Proof.
  induction l as [| x l IH]; cbn; [reflexivity |].
  rewrite sum_list_with_app, IH. reflexivity.
Qed.

(** Conversion keeps every move: each Position of the catalog has as many
    moves as its input list, so the report's total is the number of move
    objects in the input. *)
Theorem convert_json_file_keeps_moves data ps :
  convert_json_file data = Ok ps ->
  map (fun pos => length (moves pos)) ps
  = concat (map (fun od => map (fun e => length (snd e))
                               (opening_entries od)) data)
  /\ total_moves ps = Z.of_nat (input_move_count data).
Proof.
  intros H. apply convert_json_loop_lengths in H. cbn [map app] in H.
  split; [exact H |].
  rewrite total_moves_sum, sum_list_with_map, H, sum_list_concat_map.
  unfold input_move_count. f_equal. clear H.
  induction data as [| od data IH]; cbn [sum_list_with]; [reflexivity |].
  rewrite IH, <- sum_list_with_map. reflexivity.
Qed.

Lemma convert_json_file_keeps_moves_witness :
  let mv := mkMoveData (Some "27") (Some "26") None None in
  let data :=
    [ mkOpeningData (Some "Yagura") (Some [("start", [mv; mv]); ("next", [])]);
      mkOpeningData (Some "Aggressive Rook") (Some [("start", [mv])]) ] in
  exists ps, convert_json_file data = Ok ps /\ total_moves ps = 3.
Proof.
  intros mv data.
  destruct (convert_json_file data) as [ps |] eqn:E; [| discriminate].
  exists ps. split; [reflexivity |].
  destruct (convert_json_file_keeps_moves data ps E) as [_ ->].
  reflexivity.
Defined.

(** ** The report of a converted catalog *)

Lemma all_moves_app ps1 ps2 :
  all_moves (ps1 ++ ps2) = (all_moves ps1 ++ all_moves ps2)%list.
Proof. unfold all_moves. rewrite map_app, concat_app. reflexivity. Qed.

Lemma convert_opening_converted opening ps :
  convert_opening opening = Ok ps -> Forall converted (all_moves ps).
Proof.
  unfold convert_opening. generalize (jo_moves opening) as mvs.
  intros mvs. revert ps.
  induction mvs as [| [k ms] mvs IH]; intros ps; cbn.
  - intros [= <-]. constructor.
  - destruct (mapM _ ms) as [cms |] eqn:E; [| discriminate]. cbn.
    destruct (mapM _ mvs) as [rest |] eqn:Er; [| discriminate]. cbn.
    intros [= <-]. unfold all_moves. cbn. apply Forall_app. split.
    + apply mapM_Ok in E. clear -E.
      induction E as [| md cm mds cms Hcm _ IH]; constructor; [| exact IH].
      exists (parse_move md), k, (name opening). exact Hcm.
    + apply IH. reflexivity.
Qed.

Lemma convert_json_loop_converted data acc ps :
  Forall converted (all_moves acc) ->
  convert_json_loop data acc = Ok ps ->
  Forall converted (all_moves ps).
Proof.
  revert acc. induction data as [| od data IH]; intros acc Hacc;
    cbn [convert_json_loop].
  - intros [= <-]. exact Hacc.
  - destruct (od_name od) as [nm |]; [| discriminate].
    destruct (od_moves od) as [mvs |]; [| discriminate].
    cbn [subscript mbind result_bind].
    destruct (convert_opening {| name := nm; jo_moves := mvs |})
      as [positions |] eqn:E; [| discriminate].
    cbn [mbind result_bind]. apply IH.
    rewrite all_moves_app. apply Forall_app. split; [exact Hacc |].
    exact (convert_opening_converted _ _ E).
Qed.

Lemma converted_weight cm : converted cm -> 500 <= weight cm <= 1000.
Proof.
  intros (move & fen & opening & H).
  pose proof (assign_weight_bounds move opening) as Hw.
  destruct (convert_move_Ok_inv _ _ _ _ H)
    as (tr & tc & n & _ & _ & [[_ ->] | [_ (fr & fc & _ & ->)]]);
    exact Hw.
Qed.

Lemma total_moves_length positions :
  total_moves positions = Z.of_nat (length (all_moves positions)).
Proof.
  rewrite total_moves_sum. f_equal. unfold all_moves.
  induction positions as [| pos positions IH]; cbn; [reflexivity |].
  rewrite length_app, IH. reflexivity.
Qed.

Lemma bucket_partition ms :
  (length (filter (fun m => weight_bucket (weight m) = "high") ms)
   + length (filter (fun m => weight_bucket (weight m) = "medium") ms)
   + length (filter (fun m => weight_bucket (weight m) = "low") ms))%nat
  = length ms.
Proof.
  induction ms as [| m ms IH]; [reflexivity |].
  assert (weight_bucket (weight m) = "high"
          \/ weight_bucket (weight m) = "medium"
          \/ weight_bucket (weight m) = "low") as Hb.
  { unfold weight_bucket.
    destruct (800 <=? weight m); [| destruct (500 <=? weight m)]; auto. }
  rewrite !filter_cons.
  repeat case_decide; cbn [length]; try lia; exfalso;
    intuition congruence.
Qed.

Lemma counts_step_total d k :
  counts_total (counts_set d k (counts_get d k 0 + 1)) = counts_total d + 1.
Proof.
  induction d as [| [k' v] d IH]; cbn; [lia |].
  destruct (String.eqb k' k); cbn; [lia |].
  unfold counts_total in IH. rewrite IH. lia.
Qed.

Lemma tally_total key ms :
  counts_total (tally key ms) = Z.of_nat (length ms).
Proof.
  unfold tally.
  assert (forall d, counts_total (fold_left (tally_step key) ms d)
                    = counts_total d + Z.of_nat (length ms)) as H;
    [| rewrite H; cbn; lia].
  induction ms as [| m ms IH]; intros d; cbn [fold_left length]; [lia |].
  rewrite IH. unfold tally_step. rewrite counts_step_total. lia.
Qed.

Lemma counts_total_perm d1 d2 :
  d1 ≡ₚ d2 -> counts_total d1 = counts_total d2.
Proof.
  unfold counts_total.
  induction 1 as [| x l1 l2 _ IH | x y l | l1 l2 l3 _ IH1 _ IH2]; cbn;
    [reflexivity | rewrite IH; reflexivity | lia | congruence].
Qed.

Lemma count_all_tallies positions :
  opening_counts (count_all positions)
    = tally opening_name (all_moves positions)
  /\ piece_type_counts (count_all positions)
    = tally piece_type (all_moves positions).
Proof.
  rewrite count_all_flat.
  destruct (count_move_fold (all_moves positions) initial_report_state)
    as (-> & -> & _).
  split; reflexivity.
Qed.

(** Each distribution of the report accounts for every move once: the
    per-opening counts, the per-piece-type counts and the three histogram
    buckets each add up to the total number of moves. *)
Theorem report_distributions_add_up positions :
  let st := count_all positions in
  counts_total (sorted_by_count_desc (opening_counts st))
    = total_moves positions
  /\ counts_total (sorted_by_count_desc (piece_type_counts st))
    = total_moves positions
  /\ weight_distribution st !!! "high" + weight_distribution st !!! "medium"
     + weight_distribution st !!! "low" = total_moves positions.
Proof.
  cbn zeta. destruct (count_all_tallies positions) as [-> ->].
  rewrite !(counts_total_perm _ _ (sorted_by_count_desc_perm _)).
  rewrite !tally_total, total_moves_length.
  split; [reflexivity |]. split; [reflexivity |].
  rewrite !histogram_count by decide_by_compute.
  rewrite <- (bucket_partition (all_moves positions)). lia.
Qed.

(** In the report of a catalog produced by [convert_json_file] the low
    bucket is always empty: every converted weight is at least 500, so the
    high and medium buckets hold all the moves. *)
Theorem converted_catalog_has_no_low_weight data ps :
  convert_json_file data = Ok ps ->
  let wd := weight_distribution (count_all ps) in
  wd !!! "low" = 0
  /\ wd !!! "high" + wd !!! "medium" = total_moves ps.
Proof.
  intros H. cbn zeta.
  assert (weight_distribution (count_all ps) !!! "low" = 0) as Hlow.
  { rewrite histogram_count by decide_by_compute.
    apply (convert_json_loop_converted _ [] _ (Forall_nil_2 _)) in H.
    induction H as [| cm ms Hcm _ IH]; [reflexivity |].
    rewrite filter_cons. apply converted_weight in Hcm.
    rewrite decide_False; [exact IH |].
    rewrite weight_bucket_low. lia. }
  split; [exact Hlow |].
  rewrite total_moves_length, <- (bucket_partition (all_moves ps)).
  rewrite !histogram_count in * by decide_by_compute. lia.
Qed.

Lemma converted_catalog_has_no_low_weight_witness :
  let mv := mkMoveData (Some "27") (Some "26") None None in
  let data := [mkOpeningData (Some "Other") (Some [("start", [mv; mv])])] in
  exists ps,
    convert_json_file data = Ok ps
    /\ weight_distribution (count_all ps) !!! "low" = 0.
Proof.
  intros mv data.
  destruct (convert_json_file data) as [ps |] eqn:E; [| discriminate].
  exists ps. split; [reflexivity |].
  exact (proj1 (converted_catalog_has_no_low_weight data ps E)).
Defined.

(** ** The order of the report lines *)

Lemma insert_desc_filter x l v :
  filter (fun it : string * Z => snd it = v) (insert_desc x l)
  = filter (fun it : string * Z => snd it = v) (x :: l).
Proof.
  induction l as [| y l IH]; [reflexivity |].
  cbn [insert_desc]. destruct (Z.ltb_spec (snd x) (snd y)); [| reflexivity].
  rewrite (filter_cons _ y), IH, !filter_cons.
  repeat case_decide; try reflexivity; lia.
Qed.

Lemma sorted_by_count_desc_filter items v :
  filter (fun it : string * Z => snd it = v) (sorted_by_count_desc items)
  = filter (fun it : string * Z => snd it = v) items.
Proof.
  induction items as [| x items IH]; [reflexivity |].
  cbn [sorted_by_count_desc foldr]. rewrite insert_desc_filter.
  fold (sorted_by_count_desc items). rewrite !filter_cons, IH. reflexivity.
Qed.

Lemma counts_set_keys_order d k v :
  map fst (counts_set d k v)
  = if decide (k ∈ map fst d) then map fst d else (map fst d ++ [k])%list.
Proof.
  induction d as [| [k' v'] d IH]; cbn.
  - rewrite decide_False by apply not_elem_of_nil. reflexivity.
  - destruct (String.eqb_spec k' k) as [-> | Hne]; cbn.
    + rewrite decide_True by (apply elem_of_cons; left; reflexivity).
      reflexivity.
    + rewrite IH. destruct (decide (k ∈ map fst d)) as [Hin | Hin].
      * rewrite decide_True by (apply elem_of_cons; right; exact Hin).
        reflexivity.
      * rewrite decide_False; [reflexivity |].
        rewrite elem_of_cons. intros [-> | ?]; contradiction.
Qed.

Lemma first_occurrences_elem k l : k ∈ first_occurrences l <-> k ∈ l.
Proof.
  unfold first_occurrences.
  rewrite !list_elem_of_In, <- in_rev, nodup_In, <- in_rev. reflexivity.
Qed.

Lemma first_occurrences_snoc l k :
  first_occurrences (l ++ [k])
  = if decide (k ∈ l) then first_occurrences l
    else (first_occurrences l ++ [k])%list.
Proof.
  unfold first_occurrences. rewrite rev_app_distr. cbn [rev app nodup].
  destruct (in_dec string_dec k (rev l)) as [Hin | Hin].
  - rewrite decide_True; [reflexivity |].
    apply list_elem_of_In, (proj2 (in_rev l k)), Hin.
  - rewrite decide_False; [reflexivity |].
    intros Hk. apply Hin, (proj1 (in_rev l k)), list_elem_of_In, Hk.
Qed.

Lemma tally_keys key ms :
  map fst (tally key ms) = first_occurrences (map key ms).
Proof.
  unfold tally. induction ms as [| m ms IH] using rev_ind; [reflexivity |].
  rewrite fold_left_app, map_app. cbn [fold_left map].
  unfold tally_step at 1. rewrite counts_set_keys_order, IH.
  rewrite first_occurrences_snoc.
  destruct (decide (key m ∈ map key ms)) as [Hin | Hin].
  - rewrite decide_True by (apply first_occurrences_elem, Hin). reflexivity.
  - rewrite decide_False; [reflexivity |].
    rewrite first_occurrences_elem. exact Hin.
Qed.

(** The lines of each distribution come in descending order of count, and
    lines with equal counts in the order in which their keys first appear
    in the catalog: the dict lists keys by first appearance and the sort
    keeps entries of equal count in dict order. *)
Theorem report_lines_ties_by_first_appearance positions :
  let st := count_all positions in
  let ms := all_moves positions in
  map fst (opening_counts st) = first_occurrences (map opening_name ms)
  /\ map fst (piece_type_counts st) = first_occurrences (map piece_type ms)
  /\ (forall n,
        filter (fun it : string * Z => snd it = n)
          (sorted_by_count_desc (opening_counts st))
        = filter (fun it : string * Z => snd it = n) (opening_counts st))
  /\ (forall n,
        filter (fun it : string * Z => snd it = n)
          (sorted_by_count_desc (piece_type_counts st))
        = filter (fun it : string * Z => snd it = n) (piece_type_counts st)).
Proof.
  cbn zeta. destruct (count_all_tallies positions) as [-> ->].
  rewrite !tally_keys.
  repeat split; intros n; apply sorted_by_count_desc_filter.
Qed.

(** * Properties of the generator's heuristics *)

Lemma split_head_app sep (a b : string) :
  split_head sep a = a -> split_head sep (a +:+ String sep b) = a.
Proof.
  induction a as [| c a IH]; simpl.
  - intros _. rewrite Ascii.eqb_refl. reflexivity.
  - destruct (Ascii.eqb c sep); [discriminate |].
    intros [= H]. rewrite (IH H). reflexivity.
Qed.

(** [classify_opening] reads only the text before the first dash and
    returns the first opening, in dict order, whose pattern list holds it:
    as 28 is listed under Shikenbisya first, Aigakari is returned for 39
    alone; any other text gives Other. *)
Theorem classify_opening_first_match move :
  let from := split_head "-" move in
  (classify_opening move = "Yagura" <-> from ∈ ["77"; "76"; "69"; "78"])
  /\ (classify_opening move = "Aggressive Rook"
      <-> from ∈ ["27"; "26"; "25"])
  /\ (classify_opening move = "Kakugawari" <-> from ∈ ["22"; "88"])
  /\ (classify_opening move = "Shikenbisya" <-> from ∈ ["28"; "58"])
  /\ (classify_opening move = "Aigakari" <-> from = "39")
  /\ (classify_opening move = "Other"
      <-> from ∉ ["77"; "76"; "69"; "78"; "27"; "26"; "25"; "22"; "88";
                  "28"; "58"; "39"])
  /\ (forall from' to,
        split_head "-" from' = from' ->
        classify_opening (from' +:+ "-" +:+ to) = classify_opening from').
Proof.
  cbn zeta. split; [| split; [| split; [| split; [| split; [| split]]]]].
  7: { intros from' to Hfrom. unfold classify_opening.
       change ("-" +:+ to) with (String "-" to).
       rewrite (split_head_app _ _ _ Hfrom), Hfrom. reflexivity. }
  all: unfold classify_opening, opening_patterns; cbn [classify_loop];
    generalize (split_head "-" move) as from; intros from;
    case_strings;
    rewrite ?elem_of_cons, ?not_elem_of_cons, ?elem_of_nil in *;
    split; intros; try discriminate; try reflexivity;
    intuition congruence.
Qed.

Lemma classify_opening_first_match_witness :
  classify_opening "28-58" = "Shikenbisya"
  /\ classify_opening ("39" +:+ "-" +:+ "28") = classify_opening "39".
Proof.
  split.
  - destruct (classify_opening_first_match "28-58") as (_ & _ & _ & H & _).
    apply H. decide_by_compute.
  - destruct (classify_opening_first_match "39-28")
      as (_ & _ & _ & _ & _ & _ & H).
    apply H. reflexivity.
Defined.





(** * The opening names of a converted catalog *)

Lemma convert_move_opening_name move fen opening cm :
  convert_move move fen opening = Ok cm -> opening_name cm = opening.
Proof.
  intros H.
  destruct (convert_move_Ok_inv _ _ _ _ H)
    as (tr & tc & n & _ & _ & [[_ ->] | [_ (fr & fc & _ & ->)]]);
    reflexivity.
Qed.

Lemma convert_positions_opening_names nm mvs ps :
  convert_opening {| name := nm; jo_moves := mvs |} = Ok ps ->
  map opening_name (all_moves ps)
  = replicate (sum_list_with (fun e => length (snd e)) mvs) nm.
Proof.
  unfold convert_opening. cbn [jo_moves name].
  revert ps. induction mvs as [| [k ms] mvs IH]; intros ps; cbn.
  - intros [= <-]. reflexivity.
  - destruct (mapM _ ms) as [cms |] eqn:E; [| discriminate]. cbn.
    destruct (mapM _ mvs) as [rest |]; [| discriminate]. cbn.
    intros [= <-]. unfold all_moves in *. cbn.
    rewrite map_app, replicate_add, (IH rest eq_refl). f_equal.
    apply mapM_Ok in E. clear -E.
    induction E as [| md cm mds cms Hcm _ IH]; cbn; [reflexivity |].
    rewrite (convert_move_opening_name _ _ _ _ Hcm), IH. reflexivity.
Qed.

Lemma convert_json_loop_opening_names data acc ps :
  convert_json_loop data acc = Ok ps ->
  map opening_name (all_moves ps)
  = (map opening_name (all_moves acc)
     ++ concat (map (fun od =>
                       replicate
                         (sum_list_with (fun e => length (snd e))
                            (opening_entries od))
                         (default EmptyString (od_name od))) data))%list.
Proof.
  revert acc. induction data as [| od data IH]; intros acc;
    cbn [convert_json_loop map concat].
  - intros [= <-]. rewrite app_nil_r. reflexivity.
  - unfold opening_entries at 1.
    destruct (od_name od) as [nm |]; [| discriminate].
    destruct (od_moves od) as [mvs |]; [| discriminate].
    cbn [subscript mbind result_bind default].
    destruct (convert_opening {| name := nm; jo_moves := mvs |})
      as [positions |] eqn:E; [| discriminate].
    intros H. rewrite (IH _ H), all_moves_app, map_app,
      (convert_positions_opening_names _ _ _ E).
    rewrite <- app_assoc. reflexivity.
Qed.

(** Every move of the catalog carries the name of the opening record it
    was listed under: read in order, the opening names of the catalog's
    moves are each record's name repeated once per move of that record. So
    the report's opening distribution counts input moves per record name. *)
Theorem convert_json_file_opening_names data ps :
  convert_json_file data = Ok ps ->
  map opening_name (all_moves ps)
  = concat (map (fun od =>
                   replicate
                     (sum_list_with (fun e => length (snd e))
                        (opening_entries od))
                     (default EmptyString (od_name od))) data).
Proof.
  intros H. apply convert_json_loop_opening_names in H. exact H.
Qed.

Lemma convert_json_file_opening_names_witness :
  let mv := mkMoveData (Some "27") (Some "26") None None in
  let data :=
    [ mkOpeningData (Some "Yagura") (Some [("start", [mv; mv]); ("next", [mv])]);
      mkOpeningData (Some "Aggressive Rook") (Some [("start", [mv])]) ] in
  exists ps,
    convert_json_file data = Ok ps
    /\ map opening_name (all_moves ps)
       = ["Yagura"; "Yagura"; "Yagura"; "Aggressive Rook"].
Proof.
  intros mv data.
  destruct (convert_json_file data) as [ps |] eqn:E; [| discriminate].
  exists ps. split; [reflexivity |].
  rewrite (convert_json_file_opening_names data ps E). reflexivity.
Defined.
